(** * EventPacket: a shallow embedding of [event_packet.py]

    The module defines one class, [EventPacket], holding a time interval, a
    summary, a time-zone name and a location, together with four
    constructors, two comparisons, the UTC-offset computation and the
    serialisation for the Google Calendar API.

    Reading of the source.  Two places of the file are not well-formed
    Python: the parameter list of [__init__] lacks the comma after the
    default of [sample_interval_utc] (line 23), and the first pair of the
    list in [form_submit_body] lacks its closing parenthesis (line 220).
    Both are read with the missing token in place.  Annotations are not
    evaluated.  Everything else is modelled as written, including the
    exceptions the interpreter raises on the way.

    Python values are dynamically typed, so the embedding carries a type
    [value] of the Python values the class can meet, and every operation
    returns a [result]: a value or the class of the exception raised. *)

From Stdlib Require Import ZArith List String Ascii Bool Lia QArith.
From Stdlib Require Import Numbers.DecimalString.
Import ListNotations.

#[local] Set Warnings "-register-all,-abstract-large-number".

Open Scope string_scope.
Open Scope Z_scope.

(** ** Exceptions and results *)

(** The exception classes the module can raise, directly or through the
    interpreter and the libraries it calls.  [UnknownTimeZoneError] is
    pytz's.  The module itself only ever writes [raise ValueError]. *)
Inductive exn : Type :=
| ValueError
| TypeError
| KeyError
| IndexError
| AttributeError
| UnknownTimeZoneError.

Inductive result (A : Type) : Type :=
| Ok (a : A)
| Raise (e : exn).

Arguments Ok {A} a.
Arguments Raise {A} e.

Definition bind {A B : Type} (r : result A) (k : A -> result B) : result B :=
  match r with
  | Ok a => k a
  | Raise e => Raise e
  end.

Notation "x <- r ;; k" := (bind r (fun x => k))
  (at level 61, r at next level, right associativity).
Notation "' p <- r ;; k" := (bind r (fun p => k))
  (at level 61, p pattern, r at next level, right associativity).

Definition returns {A : Type} (r : result A) : Prop := exists a, r = Ok a.
Definition raises {A : Type} (r : result A) (e : exn) : Prop := r = Raise e.

(** ** Naive datetimes (module [datetime]) *)

(** A naive [datetime.datetime]: no tzinfo attached. *)
Record datetime : Type := mkdatetime {
  year : Z;
  month : Z;
  day : Z;
  hour : Z;
  minute : Z;
  second : Z;
  microsecond : Z
}.

Definition is_leap (y : Z) : bool :=
  (y mod 4 =? 0) && (negb (y mod 100 =? 0) || (y mod 400 =? 0)).

Definition days_in_month (y m : Z) : Z :=
  if m =? 2 then (if is_leap y then 29 else 28)
  else if (m =? 4) || (m =? 6) || (m =? 9) || (m =? 11) then 30
  else 31.

(** The checks of the [datetime] constructor. *)
Definition valid_datetimeb (d : datetime) : bool :=
  (1 <=? year d) && (year d <=? 9999) &&
  (1 <=? month d) && (month d <=? 12) &&
  (1 <=? day d) && (day d <=? days_in_month (year d) (month d)) &&
  (0 <=? hour d) && (hour d <=? 23) &&
  (0 <=? minute d) && (minute d <=? 59) &&
  (0 <=? second d) && (second d <=? 59) &&
  (0 <=? microsecond d) && (microsecond d <=? 999999).

Definition valid_datetime (d : datetime) : Prop := valid_datetimeb d = true.

(** [datetime(y, m, d, H, M, S, us)]: [ValueError] outside the ranges. *)
Definition datetime_new (y m d H M S us : Z) : result datetime :=
  let t := mkdatetime y m d H M S us in
  if valid_datetimeb t then Ok t else Raise ValueError.

Definition days_before_year (y : Z) : Z :=
  let p := y - 1 in p * 365 + p / 4 - p / 100 + p / 400.

Fixpoint days_before_month_from (y : Z) (m : nat) : Z :=
  match m with
  | O => 0
  | S k => days_before_month_from y k + days_in_month y (Z.of_nat m)
  end.

(** Number of days of year [y] before the first of month [m]. *)
Definition days_before_month (y m : Z) : Z :=
  days_before_month_from y (Z.to_nat (m - 1)).

(** [date.toordinal]: 1 for 0001-01-01. *)
Definition toordinal (d : datetime) : Z :=
  days_before_year (year d) + days_before_month (year d) (month d) + day d.

(** [date.weekday]: Monday is 0, Sunday is 6. *)
Definition weekday (d : datetime) : Z := (toordinal d + 6) mod 7.

(** A normalised [timedelta]: [0 <= td_seconds < 86400] and
    [0 <= td_microseconds < 10^6]. *)
Record timedelta : Type := mktimedelta {
  td_days : Z;
  td_seconds : Z;
  td_microseconds : Z
}.

Definition timedelta_new (days seconds microseconds : Z) : timedelta :=
  let s := seconds + microseconds / 1000000 in
  mktimedelta (days + s / 86400) (s mod 86400) (microseconds mod 1000000).

Definition seconds_of_day (d : datetime) : Z :=
  second d + minute d * 60 + hour d * 3600.

(** [datetime.__sub__] on two naive datetimes. *)
Definition datetime_sub (a b : datetime) : timedelta :=
  timedelta_new (toordinal a - toordinal b)
                (seconds_of_day a - seconds_of_day b)
                (microsecond a - microsecond b).

(** [timedelta.total_seconds]: Python divides the whole number of
    microseconds by [10**6] and returns the float nearest to the quotient.
    The embedding keeps the exact quotient as a rational.  The float is
    that rational whenever the quotient is a whole number below 2^53 in
    size or a binary fraction such as 1/2, and it always has the sign of
    the quotient; the statements about durations use the quotient in
    these ways only. *)
Definition total_microseconds (td : timedelta) : Z :=
  (td_days td * 86400 + td_seconds td) * 1000000 + td_microseconds td.

Definition total_seconds (td : timedelta) : Q :=
  Qmake (total_microseconds td) 1000000.

Definition is_whole (q : Q) : Prop := exists n : Z, Qeq q (inject_Z n).

(** ** Python values *)

(** The values the class is handed or builds.  Strings are sequences of
    characters with code points below 256; a dictionary keeps its entries
    in insertion order and has string keys. *)
Inductive value : Type :=
| VNone
| VBool (b : bool)
| VInt (n : Z)
| VStr (s : string)
| VDatetime (d : datetime)
| VTuple (items : list value)
| VList (items : list value)
| VDict (entries : list (string * value)).

Definition is_tuple (v : value) : bool :=
  match v with VTuple _ => true | _ => false end.

Definition is_str (v : value) : bool :=
  match v with VStr _ => true | _ => false end.

Definition is_dict (v : value) : bool :=
  match v with VDict _ => true | _ => false end.

Definition is_datetime (v : value) : bool :=
  match v with VDatetime _ => true | _ => false end.

Fixpoint assoc {A : Type} (k : string) (entries : list (string * A)) : option A :=
  match entries with
  | [] => None
  | (k', v) :: rest => if String.eqb k k' then Some v else assoc k rest
  end.

Fixpoint chars_of (s : string) : list value :=
  match s with
  | EmptyString => []
  | String c s' => VStr (String c EmptyString) :: chars_of s'
  end.

(** [iter(v)]: the items a [for] loop or an unpacking draws from [v]. *)
Definition py_iter (v : value) : result (list value) :=
  match v with
  | VTuple items | VList items => Ok items
  | VStr s => Ok (chars_of s)
  | VDict entries => Ok (map (fun kv => VStr (fst kv)) entries)
  | VNone | VBool _ | VInt _ | VDatetime _ => Raise TypeError
  end.

(** [v[k]] for a string key [k]. *)
Definition getitem (v : value) (k : string) : result value :=
  match v with
  | VDict entries =>
      match assoc k entries with
      | Some x => Ok x
      | None => Raise KeyError
      end
  | _ => Raise TypeError
  end.

Definition datetime_eqb (a b : datetime) : bool :=
  (year a =? year b) && (month a =? month b) && (day a =? day b) &&
  (hour a =? hour b) && (minute a =? minute b) && (second a =? second b) &&
  (microsecond a =? microsecond b).

Definition int_of_bool (b : bool) : Z := if b then 1 else 0.

(** [a == b].  Sequences compare item by item, dictionaries entry by
    entry whatever the order, [bool] is a subclass of [int], and values of
    unrelated types are unequal. *)
Fixpoint py_eq (a b : value) : bool :=
  let fix items_eq (xs ys : list value) : bool :=
    match xs, ys with
    | [], [] => true
    | x :: xs', y :: ys' => py_eq x y && items_eq xs' ys'
    | _, _ => false
    end in
  let fix entries_in (es other : list (string * value)) : bool :=
    match es with
    | [] => true
    | (k, v) :: es' =>
        match assoc k other with
        | Some w => py_eq v w && entries_in es' other
        | None => false
        end
    end in
  match a, b with
  | VNone, VNone => true
  | VBool x, VBool y => Bool.eqb x y
  | VBool x, VInt n => int_of_bool x =? n
  | VInt m, VBool y => m =? int_of_bool y
  | VInt m, VInt n => m =? n
  | VStr s, VStr t => String.eqb s t
  | VDatetime d, VDatetime e => datetime_eqb d e
  | VTuple xs, VTuple ys => items_eq xs ys
  | VList xs, VList ys => items_eq xs ys
  | VDict d1, VDict d2 =>
      (Nat.eqb (List.length d1) (List.length d2)) && entries_in d1 d2
  | _, _ => false
  end.

(** ** A fragment of [re]: sequences of character classes and groups of
       ordered alternatives, matched from the start of the string with
       backtracking over the alternatives. *)

Inductive cclass : Type :=
| Digit
| Between (lo hi : ascii)
| Exactly (c : ascii)
| AnyCase (upper lower : ascii).

Definition is_digit (c : ascii) : bool :=
  (48 <=? nat_of_ascii c)%nat && (nat_of_ascii c <=? 57)%nat.

Definition cclass_match (k : cclass) (c : ascii) : bool :=
  match k with
  | Digit => is_digit c
  | Between lo hi =>
      (nat_of_ascii lo <=? nat_of_ascii c)%nat && (nat_of_ascii c <=? nat_of_ascii hi)%nat
  | Exactly x => Ascii.eqb x c
  | AnyCase u l => Ascii.eqb u c || Ascii.eqb l c
  end.

Inductive item : Type :=
| Lit (cs : list cclass)
| Group (alternatives : list (list cclass)).

Definition regex : Type := list item.

(** Matches [cs] against a prefix of [s]: the prefix and what is left. *)
Fixpoint match_chars (cs : list cclass) (s : string) : option (string * string) :=
  match cs with
  | [] => Some (EmptyString, s)
  | k :: cs' =>
      match s with
      | EmptyString => None
      | String c s' =>
          if cclass_match k c then
            match match_chars cs' s' with
            | Some (m, r) => Some (String c m, r)
            | None => None
            end
          else None
      end
  end.

(** [re.match]: the text of each group and the unmatched rest, for the first
    choice of alternatives under which the whole pattern matches. *)
Fixpoint re_match (re : regex) (s : string) : option (list string * string) :=
  match re with
  | [] => Some ([], s)
  | Lit cs :: re' =>
      match match_chars cs s with
      | Some (_, r) => re_match re' r
      | None => None
      end
  | Group alternatives :: re' =>
      (fix try (alts : list (list cclass)) : option (list string * string) :=
         match alts with
         | [] => None
         | a :: alts' =>
             match match_chars a s with
             | Some (m, r) =>
                 match re_match re' r with
                 | Some (gs, r') => Some (m :: gs, r')
                 | None => try alts'
                 end
             | None => try alts'
             end
         end) alternatives
  end.

(** ** Decimal text *)

Definition decimal (n : Z) : string := NilZero.string_of_int (Z.to_int n).

Fixpoint zeros (n : nat) : string :=
  match n with
  | O => EmptyString
  | S k => String "0" (zeros k)
  end.

(** [%0wd] for a non-negative number. *)
Definition zero_padded (w : nat) (n : Z) : string :=
  let s := decimal n in zeros (w - String.length s) ++ s.

Definition digit_value (c : ascii) : Z := Z.of_nat (nat_of_ascii c) - 48.

Fixpoint int_of_digits (acc : Z) (s : string) : Z :=
  match s with
  | EmptyString => acc
  | String c s' => int_of_digits (acc * 10 + digit_value c) s'
  end.

(** [int(s)] on the text of a [strptime] group: digits, after at most one
    leading blank. *)
Definition int_of_group (s : string) : Z :=
  match s with
  | String " " s' => int_of_digits 0 s'
  | _ => int_of_digits 0 s
  end.

(** ** [strptime] and [strftime] for the format of the module *)

(** The format of [from_string], line 69, and of
    [google_calendar_format], line 179. *)
Definition iso_format : string := "%Y-%m-%dT%H:%M:%S".

(** The pattern [_strptime] compiles [iso_format] to, under
    [re.IGNORECASE]:
    [(\d\d\d\d)-(1[0-2]|0[1-9]|[1-9])-(3[0-1]|[1-2]\d|0[1-9]|[1-9]| [1-9])T(2[0-3]|[0-1]\d|\d):([0-5]\d|\d):(6[0-1]|[0-5]\d|\d)]. *)
Definition iso_regex : regex :=
  [ Group [[Digit; Digit; Digit; Digit]];
    Lit [Exactly "-"];
    Group [[Exactly "1"; Between "0" "2"]; [Exactly "0"; Between "1" "9"]; [Between "1" "9"]];
    Lit [Exactly "-"];
    Group [[Exactly "3"; Between "0" "1"]; [Between "1" "2"; Digit];
           [Exactly "0"; Between "1" "9"]; [Between "1" "9"];
           [Exactly " "; Between "1" "9"]];
    Lit [AnyCase "T" "t"];
    Group [[Exactly "2"; Between "0" "3"]; [Between "0" "1"; Digit]; [Digit]];
    Lit [Exactly ":"];
    Group [[Between "0" "5"; Digit]; [Digit]];
    Lit [Exactly ":"];
    Group [[Exactly "6"; Between "0" "1"]; [Between "0" "5"; Digit]; [Digit]] ]%char.

(** [datetime.datetime.strptime(s, iso_format)]: the string has to
    match the pattern with nothing left over, and the fields have to pass
    the [datetime] constructor. *)
Definition strptime (s : string) : result datetime :=
  match re_match iso_regex s with
  | Some ([gY; gm; gd; gH; gM; gS], EmptyString) =>
      datetime_new (int_of_group gY) (int_of_group gm) (int_of_group gd)
                   (int_of_group gH) (int_of_group gM) (int_of_group gS) 0
  | _ => Raise ValueError
  end.

(** The same call on an arbitrary value: a non-string is a [TypeError]. *)
Definition py_strptime (v : value) : result value :=
  match v with
  | VStr s => d <- strptime s ;; Ok (VDatetime d)
  | _ => Raise TypeError
  end.

(** One directive of [strftime] for a naive datetime: the directives the
    module uses, [%z] (empty for a naive datetime) and [%%].  [%Y] is
    written with four digits. *)
Definition directive (d : datetime) (c : ascii) : string :=
  if Ascii.eqb c "Y" then zero_padded 4 (year d)
  else if Ascii.eqb c "m" then zero_padded 2 (month d)
  else if Ascii.eqb c "d" then zero_padded 2 (day d)
  else if Ascii.eqb c "H" then zero_padded 2 (hour d)
  else if Ascii.eqb c "M" then zero_padded 2 (minute d)
  else if Ascii.eqb c "S" then zero_padded 2 (second d)
  else if Ascii.eqb c "z" then EmptyString
  else if Ascii.eqb c "%" then String c EmptyString
  else String "%" (String c EmptyString).

(** [d.strftime(fmt)]: directives are expanded, every other character is
    copied. *)
Fixpoint strftime (d : datetime) (fmt : string) : string :=
  match fmt with
  | EmptyString => EmptyString
  | String "%" (String c rest) => directive d c ++ strftime d rest
  | String c rest => String c (strftime d rest)
  end.

(** [v.strftime(fmt)]: only datetimes have the method. *)
Definition py_strftime (v : value) (fmt : string) : result value :=
  match v with
  | VDatetime d => Ok (VStr (strftime d fmt))
  | _ => Raise AttributeError
  end.

(** [v[i]] for an index [i]. *)
Definition index (v : value) (i : nat) : result value :=
  match v with
  | VTuple items | VList items =>
      match nth_error items i with
      | Some x => Ok x
      | None => Raise IndexError
      end
  | VStr s =>
      match String.get i s with
      | Some c => Ok (VStr (String c EmptyString))
      | None => Raise IndexError
      end
  | VDict _ => Raise KeyError
  | VNone | VBool _ | VInt _ | VDatetime _ => Raise TypeError
  end.

(** ** [json.dumps(..., indent=4)] *)

Definition newline : string := String (ascii_of_nat 10) EmptyString.
Definition dquote : string := String (ascii_of_nat 34) EmptyString.
Definition backslash : string := String (ascii_of_nat 92) EmptyString.

Definition hex_digit (n : nat) : string :=
  match String.get n "0123456789abcdef" with
  | Some c => String c EmptyString
  | None => EmptyString
  end.

(** One character under [ensure_ascii]. *)
Definition json_escape_char (c : ascii) : string :=
  let n := nat_of_ascii c in
  if Nat.eqb n 34 then backslash ++ dquote
  else if Nat.eqb n 92 then backslash ++ backslash
  else if Nat.eqb n 10 then backslash ++ "n"
  else if Nat.eqb n 13 then backslash ++ "r"
  else if Nat.eqb n 9 then backslash ++ "t"
  else if Nat.eqb n 8 then backslash ++ "b"
  else if Nat.eqb n 12 then backslash ++ "f"
  else if (n <? 32)%nat || (126 <? n)%nat
       then backslash ++ "u00" ++ hex_digit (n / 16) ++ hex_digit (n mod 16)
  else String c EmptyString.

Fixpoint json_escape (s : string) : string :=
  match s with
  | EmptyString => EmptyString
  | String c s' => json_escape_char c ++ json_escape s'
  end.

Definition json_string (s : string) : string := dquote ++ json_escape s ++ dquote.

Fixpoint spaces (n : nat) : string :=
  match n with
  | O => EmptyString
  | S k => String " " (spaces k)
  end.

Definition newline_indent (level : nat) : string := newline ++ spaces (4 * level).

Fixpoint join (sep : string) (parts : list string) : string :=
  match parts with
  | [] => EmptyString
  | [p] => p
  | p :: rest => p ++ sep ++ join sep rest
  end.

(** A container at nesting depth [level] whose encoded members are [parts]. *)
Definition json_block (opening closing : string) (level : nat) (parts : list string) : string :=
  match parts with
  | [] => opening ++ closing
  | _ => opening ++ newline_indent (S level)
         ++ join ("," ++ newline_indent (S level)) parts
         ++ newline_indent level ++ closing
  end.

(** The encoder: a datetime is not serialisable. *)
Fixpoint json_encode (level : nat) (v : value) {struct v} : result string :=
  let fix elements (xs : list value) : result (list string) :=
    match xs with
    | [] => Ok []
    | x :: xs' =>
        s <- json_encode (S level) x ;;
        ss <- elements xs' ;;
        Ok (s :: ss)
    end in
  let fix members (es : list (string * value)) : result (list string) :=
    match es with
    | [] => Ok []
    | (k, x) :: es' =>
        s <- json_encode (S level) x ;;
        ss <- members es' ;;
        Ok ((json_string k ++ ": " ++ s) :: ss)
    end in
  match v with
  | VNone => Ok "null"
  | VBool true => Ok "true"
  | VBool false => Ok "false"
  | VInt n => Ok (decimal n)
  | VStr s => Ok (json_string s)
  | VDatetime _ => Raise TypeError
  | VTuple xs | VList xs => ss <- elements xs ;; Ok (json_block "[" "]" level ss)
  | VDict es => ss <- members es ;; Ok (json_block "{" "}" level ss)
  end.

Definition json_dumps (v : value) : result string := json_encode 0 v.

(** ** The class [EventPacket] *)

Definition NAME : string := "Jared".
Definition GLOBAL_SUMMARY : string := NAME ++ "'s Work".
Definition DEFAULT_LOCATION : string := "800 N State College Blvd, Fullerton, CA 92831".

(** An instance: the six attributes [__init__] assigns. *)
Record EventPacket : Type := mkEventPacket {
  begin : value;
  end_ : value;
  summary : value;
  sample_interval_utc : value;
  timezone : value;
  location : value
}.

(** [self.name]: the class defines no data attribute and no [__getattr__],
    so only the names assigned in [__init__] resolve to values. *)
Definition getattr (self : EventPacket) (name : string) : result value :=
  if String.eqb name "begin" then Ok (begin self)
  else if String.eqb name "end" then Ok (end_ self)
  else if String.eqb name "summary" then Ok (summary self)
  else if String.eqb name "sample_interval_utc" then Ok (sample_interval_utc self)
  else if String.eqb name "timezone" then Ok (timezone self)
  else if String.eqb name "location" then Ok (location self)
  else Raise AttributeError.

(** What a caller can pass where an [EventPacket] is expected. *)
Inductive object : Type :=
| Instance (e : EventPacket)
| Plain (v : value).

(** The first argument of [__init__]: a value, or the lazy iterator
    [map(strptime, items)] that [from_string] builds, whose items are parsed
    one by one as they are drawn. *)
Inductive interval_arg : Type :=
| Given (v : value)
| MapStrptime (pending : list value).

Definition arg_is_tuple (a : interval_arg) : bool :=
  match a with
  | Given v => is_tuple v
  | MapStrptime _ => false
  end.

(** [x, y = a]: exactly two items, else [ValueError].  On the lazy iterator
    the third draw, which detects a surplus item, parses that item first. *)
Definition unpack2 (a : interval_arg) : result (value * value) :=
  match a with
  | Given v =>
      items <- py_iter v ;;
      match items with
      | [x; y] => Ok (x, y)
      | _ => Raise ValueError
      end
  | MapStrptime pending =>
      match pending with
      | [] => Raise ValueError
      | [p] => _ <- py_strptime p ;; Raise ValueError
      | p :: q :: rest =>
          x <- py_strptime p ;;
          y <- py_strptime q ;;
          match rest with
          | [] => Ok (x, y)
          | r :: _ => _ <- py_strptime r ;; Raise ValueError
          end
      end
  end.

Definition default_sample_interval_utc : value :=
  VTuple [VBool false; VStr "America/Los_Angeles"].

(** [EventPacket.__init__], lines 41-49. *)
Definition __init__ (interval : interval_arg) (summary sample_interval_utc location : value)
  : result EventPacket :=
  if negb (arg_is_tuple interval || is_str summary) then Raise ValueError
  else
    '(b, e) <- unpack2 interval ;;
    '(flag, zone) <- unpack2 (Given sample_interval_utc) ;;
    Ok (mkEventPacket b e summary flag zone location).

(** [EventPacket(interval, summary)] with the remaining defaults. *)
Definition new (interval : interval_arg) (summary : value) : result EventPacket :=
  __init__ interval summary default_sample_interval_utc (VStr DEFAULT_LOCATION).

(** [EventPacket.from_string], lines 63-71. *)
Definition from_string (interval summary : value) : result EventPacket :=
  if negb (is_tuple interval || is_str summary) then Raise ValueError
  else
    pending <- py_iter interval ;;
    new (MapStrptime pending) summary.

(** A call of [EventPacket.from_string] with the positional arguments
    [args]: the method takes two besides the class. *)
Definition call_from_string (args : list value) : result EventPacket :=
  match args with
  | [interval; summary] => from_string interval summary
  | _ => Raise TypeError
  end.

(** [EventPacket.from_dict], lines 85-89. *)
Definition from_dict (body : value) : result EventPacket :=
  if negb (is_dict body) then Raise ValueError
  else
    s <- getitem body "start" ;;
    e <- getitem body "end" ;;
    t <- getitem body "summary" ;;
    call_from_string [VTuple [s; e]; t].

(** [EventPacket.from_freebusy], lines 104-105: three arguments are passed
    to [from_string]. *)
Definition from_freebusy (response : value) : result EventPacket :=
  s <- getitem response "start" ;;
  sd <- getitem s "dateTime" ;;
  e <- getitem response "end" ;;
  ed <- getitem e "dateTime" ;;
  t <- getitem response "summary" ;;
  call_from_string [sd; ed; t].

(** [EventPacket.__eq__], lines 118-124. *)
Definition __eq__ (self : EventPacket) (rhs : object) : result bool :=
  match rhs with
  | Plain _ => Raise ValueError
  | Instance other =>
      b1 <- getattr self "begin" ;;
      e1 <- getattr self "end" ;;
      b2 <- getattr other "begin" ;;
      e2 <- getattr other "end" ;;
      if py_eq (VTuple [b1; e1]) (VTuple [b2; e2]) then
        s1 <- getattr self "summary" ;;
        s2 <- getattr other "summary" ;;
        Ok (py_eq s1 s2)
      else Ok false
  end.

(** [EventPacket.__lt__], lines 137-140. *)
Definition __lt__ (self : EventPacket) (rhs : object) : result bool :=
  match rhs with
  | Plain _ => Raise ValueError
  | Instance _ => Ok false
  end.

(** The property [time_elapsed], line 212.  Two datetimes subtract to a
    timedelta; two integers subtract to an integer, which has no
    [total_seconds]; other operands do not subtract. *)
Definition time_elapsed (self : EventPacket) : result Q :=
  e <- getattr self "end" ;;
  b <- getattr self "begin" ;;
  match e, b with
  | VDatetime x, VDatetime y => Ok (total_seconds (datetime_sub x y))
  | (VInt _ | VBool _), (VInt _ | VBool _) => Raise AttributeError
  | _, _ => Raise TypeError
  end.

(** ** Time zones (pytz) *)

(** A zone of the tz database as [localize] uses it: the UTC offset, in
    whole minutes east of Greenwich, that [localize] attaches to a naive
    local time, or the exception it raises. *)
Definition zone : Type := datetime -> result Z.

(** The database: the zone of a name, if the name is known. *)
Definition zoneinfo : Type := string -> option zone.

(** [strftime('%z')] of an aware datetime whose offset is [off] minutes. *)
Definition strftime_z (off : Z) : string :=
  (if off <? 0 then "-" else "+")
  ++ zero_padded 2 (Z.abs off / 60) ++ zero_padded 2 (Z.abs off mod 60).

(** The pattern of [utc_offset], line 193: [(\-\d{2})(\d{2})]. *)
Definition offset_regex : regex :=
  [ Group [[Exactly "-"%char; Digit; Digit]]; Group [[Digit; Digit]] ].

Section WithZoneinfo.

Variable tzdata : zoneinfo.

(** [pytz.timezone(name)]. *)
Definition pytz_timezone (name : value) : result zone :=
  match name with
  | VNone => Raise UnknownTimeZoneError
  | VStr s =>
      match tzdata s with
      | Some z => Ok z
      | None => Raise UnknownTimeZoneError
      end
  | _ => Raise AttributeError
  end.

(** [tz.localize(t)]: the naive datetime with its offset attached. *)
Definition localize (tz : zone) (t : value) : result (datetime * Z) :=
  match t with
  | VDatetime d => off <- tz d ;; Ok (d, off)
  | _ => Raise AttributeError
  end.

(** [EventPacket.utc_offset], lines 193-201. *)
Definition utc_offset (self : EventPacket) (time_object : value) : result string :=
  name <- getattr self "timezone" ;;
  tz <- pytz_timezone name ;;
  aware <- localize tz time_object ;;
  let current_offset := strftime_z (snd aware) in
  match re_match offset_regex current_offset with
  | Some (groups, _) => Ok (join ":" groups)
  | None => Raise ValueError
  end.

(** [EventPacket.google_calendar_format], lines 175-180. *)
Definition google_calendar_format (self : EventPacket) : result value :=
  interval <- getattr self "interval" ;;
  first <- index interval 0 ;;
  current_offset <- utc_offset self first ;;
  b <- getattr self "begin" ;;
  e <- getattr self "end" ;;
  x <- py_strftime b (iso_format ++ current_offset) ;;
  y <- py_strftime e (iso_format ++ current_offset) ;;
  Ok (VList [x; y]).

(** [EventPacket.form_submit_body], lines 219-227. *)
Definition form_submit_body (self : EventPacket) : result string :=
  s <- getattr self "summary" ;;
  f0 <- google_calendar_format self ;;
  d0 <- index f0 0 ;;
  z0 <- getattr self "timezone" ;;
  f1 <- google_calendar_format self ;;
  d1 <- index f1 1 ;;
  z1 <- getattr self "timezone" ;;
  l <- getattr self "location" ;;
  json_dumps (VDict [ ("summary", s);
                      ("start", VDict [("dateTime", d0); ("timeZone", z0)]);
                      ("end", VDict [("dateTime", d1); ("timeZone", z1)]);
                      ("location", l) ]).

End WithZoneinfo.

(** *** The zones used in the examples *)

(** Day of the month of the [n]-th Sunday of month [m] of year [y]. *)
Definition nth_sunday (y m n : Z) : Z :=
  let w := weekday (mkdatetime y m 1 0 0 0 0) in
  1 + (6 - w) mod 7 + 7 * (n - 1).

(** Minutes since the start of the month. *)
Definition minute_of_month (dd hh mm : Z) : Z := (dd * 24 + hh) * 60 + mm.

(** Daylight saving time in the United States under the rules in force
    since 2007, as [localize] resolves a wall-clock time with its default
    [is_dst=False]: from the second Sunday of March to the first Sunday of
    November; the skipped hour 02:00-03:00 and the repeated hour
    01:00-02:00 are both read as standard time. *)
Definition us_dst (d : datetime) : bool :=
  let now := minute_of_month (day d) (hour d) (minute d) in
  if (month d =? 3) then minute_of_month (nth_sunday (year d) 3 2) 3 0 <=? now
  else if (month d =? 11) then now <? minute_of_month (nth_sunday (year d) 11 1) 1 0
  else (3 <? month d) && (month d <? 11).

(** The local times a rule is stated for: the valid datetimes of the years
    [first] to [last]. *)
Definition in_years (first last : Z) (d : datetime) : bool :=
  valid_datetimeb d && (first <=? year d) && (year d <=? last).

(** America/Los_Angeles on the valid local times of 2007 to 2037, where
    pytz's table follows the rule of [us_dst]: UTC-8, UTC-7 during daylight
    saving time.  At every other time the zone is [elsewhere]: the rules
    before 2007, the end of pytz's table after 2037 and the overflow of
    [localize] within a day of the ends of the datetime range are not
    modelled. *)
Definition los_angeles (elsewhere : zone) : zone :=
  fun d => if in_years 2007 2037 d then Ok (if us_dst d then -420 else -480)
           else elsewhere d.

(** Asia/Tokyo on the valid local times of 1952 to 2037: UTC+9 with no
    daylight saving time.  At every other time the zone is [elsewhere]. *)
Definition tokyo (elsewhere : zone) : zone :=
  fun d => if in_years 1952 2037 d then Ok 540 else elsewhere d.

(** A zone with one offset at every time, as [pytz.utc] is with 0. *)
Definition fixed_offset (minutes : Z) : zone := fun _ => Ok minutes.

(** A small extract of the database, over what the zones do outside the
    years the extract covers. *)
Definition zoneinfo_extract (elsewhere : zone) : zoneinfo :=
  fun name =>
    if String.eqb name "America/Los_Angeles" then Some (los_angeles elsewhere)
    else if String.eqb name "UTC" then Some (fixed_offset 0)
    else if String.eqb name "Asia/Tokyo" then Some (tokyo elsewhere)
    else None.

(** The closed examples need total zones; outside the years of the extract
    they use this one.  No statement depends on it: what is proved of the
    extract is proved for every [elsewhere]. *)
Definition not_in_extract : zone := fun _ => Raise UnknownTimeZoneError.

Definition sample_zoneinfo : zoneinfo := zoneinfo_extract not_in_extract.

(** *** Concrete inputs *)

Definition at_time (y m d H M S : Z) : value := VDatetime (mkdatetime y m d H M S 0).

Definition event_in (zone_name : string) (b e : value) (text : value) : EventPacket :=
  mkEventPacket b e text (VBool false) (VStr zone_name) (VStr DEFAULT_LOCATION).

(** 2019-07-14, 15:00:00 to 23:30:00, in the default zone. *)
Definition shift_event : EventPacket :=
  event_in "America/Los_Angeles" (at_time 2019 7 14 15 0 0) (at_time 2019 7 14 23 30 0) (VStr "X").

Definition tokyo_event : EventPacket :=
  event_in "Asia/Tokyo" (at_time 2019 7 14 15 0 0) (at_time 2019 7 14 23 30 0) (VStr "X").

(** An interval of half a second. *)
Definition half_second_event : EventPacket :=
  event_in "America/Los_Angeles"
           (VDatetime (mkdatetime 2019 7 14 15 0 0 0))
           (VDatetime (mkdatetime 2019 7 14 15 0 0 500000)) (VStr "X").

Definition flat_example : value :=
  VDict [ ("id", VInt 7);
          ("start", VStr "2019-07-14T15:00:00");
          ("end", VStr "2019-07-14T23:30:00");
          ("summary", VStr "X") ].

Definition freebusy_example : value :=
  VDict [ ("start", VDict [("dateTime", VStr "2019-07-14T15:00:00")]);
          ("end", VDict [("dateTime", VStr "2019-07-14T23:30:00")]);
          ("summary", VStr "X") ].

(** The two groups the pattern of [utc_offset] finds in the [%z] text of
    an offset of [n] minutes west: checked for one [n]. *)
Definition west_groups_ok (n : Z) : bool :=
  match re_match offset_regex (strftime_z (- n)) with
  | Some ([g1; g2], EmptyString) =>
      String.eqb g1 ("-" ++ zero_padded 2 (n / 60)) && String.eqb g2 (zero_padded 2 (n mod 60))
  | _ => false
  end.

(** *** Checks used by the proofs about the timestamp format *)

(** [g] is matched in full by the first alternative that matches a prefix
    of it, and the alternatives before that one are no longer than [g], so
    that they fail on every text that starts with [g]. *)
Fixpoint first_full_match (alts : list (list cclass)) (g : string) : bool :=
  match alts with
  | [] => false
  | a :: alts' =>
      match match_chars a g with
      | Some (_, EmptyString) => true
      | Some (_, String _ _) => false
      | None => (List.length a <=? String.length g)%nat && first_full_match alts' g
      end
  end.

Definition group_alternatives (it : item) : list (list cclass) :=
  match it with
  | Group alts => alts
  | Lit _ => []
  end.

(** The alternatives of the [k]-th group of the timestamp pattern. *)
Definition iso_group (k : nat) : list (list cclass) :=
  group_alternatives (nth (2 * k) iso_regex (Lit [])).

(** The rendered field of width [w] is matched in full by group [k] and
    read back as the number it renders. *)
Definition field_ok (w k : nat) (n : Z) : bool :=
  first_full_match (iso_group k) (zero_padded w n)
  && (int_of_group (zero_padded w n) =? n).

(** ** Display: [prettify] and [__repr__] *)

(** [%A] in the C locale, from [date.weekday]. *)
Definition weekday_name (w : Z) : string :=
  if w =? 0 then "Monday" else if w =? 1 then "Tuesday"
  else if w =? 2 then "Wednesday" else if w =? 3 then "Thursday"
  else if w =? 4 then "Friday" else if w =? 5 then "Saturday"
  else "Sunday".

(** [%B] in the C locale. *)
Definition month_name (m : Z) : string :=
  if m =? 1 then "January" else if m =? 2 then "February"
  else if m =? 3 then "March" else if m =? 4 then "April"
  else if m =? 5 then "May" else if m =? 6 then "June"
  else if m =? 7 then "July" else if m =? 8 then "August"
  else if m =? 9 then "September" else if m =? 10 then "October"
  else if m =? 11 then "November" else "December".

(** The directives of [prettify]: the names, and those of [directive]. *)
Definition directive_named (d : datetime) (c : ascii) : string :=
  if Ascii.eqb c "A" then weekday_name (weekday d)
  else if Ascii.eqb c "B" then month_name (month d)
  else directive d c.

Fixpoint strftime_named (d : datetime) (fmt : string) : string :=
  match fmt with
  | EmptyString => EmptyString
  | String "%" (String c rest) => directive_named d c ++ strftime_named d rest
  | String c rest => String c (strftime_named d rest)
  end.

(** [EventPacket.prettify], line 154. *)
Definition prettify (self : EventPacket) (time_object : value) : result string :=
  match time_object with
  | VDatetime d => Ok (strftime_named d "%A %B %d, %H:%M")
  | _ => Raise AttributeError
  end.

Section WithFormatting.

(** [format(v, '')], what an f-string writes for [v]; it is [str(v)] for
    the values of the embedding and is left open. *)
Variable format_value : value -> string.

(** [EventPacket.__repr__], lines 164-168. *)
Definition __repr__ (self : EventPacket) : result string :=
  s <- getattr self "summary" ;;
  i0 <- getattr self "interval" ;;
  t0 <- index i0 0 ;;
  start <- prettify self t0 ;;
  i1 <- getattr self "interval" ;;
  t1 <- index i1 1 ;;
  Ok (newline ++ spaces 15 ++ "Summary: " ++ format_value s
      ++ newline ++ spaces 15 ++ "Start: " ++ start
      ++ newline ++ spaces 15 ++ "End: " ++ format_value t1
      ++ newline ++ spaces 15).

End WithFormatting.

(** ** Order of naive datetimes *)

Definition datetime_fields (d : datetime) : list Z :=
  [year d; month d; day d; hour d; minute d; second d; microsecond d].

Fixpoint lex_ltb (xs ys : list Z) : bool :=
  match xs, ys with
  | x :: xs', y :: ys' => (x <? y) || ((x =? y) && lex_ltb xs' ys')
  | _, _ => false
  end.

(** [a < b] on naive datetimes: the fields compared in order. *)
Definition datetime_ltb (a b : datetime) : bool :=
  lex_ltb (datetime_fields a) (datetime_fields b).

(** Microseconds from the start of day 0 of the ordinal count. *)
Definition instant (d : datetime) : Z :=
  (toordinal d * 86400 + seconds_of_day d) * 1000000 + microsecond d.

(** A database whose offsets stay within a day, as [tzinfo.utcoffset]
    requires. *)
Definition offsets_bounded (tzdata : zoneinfo) : Prop :=
  forall (name : string) (z : zone) (d : datetime) (off : Z),
    tzdata name = Some z -> z d = Ok off -> -1440 < off < 1440.

(** The rendered offset of [n] minutes west has six characters. *)
Definition west_length_ok (n : Z) : bool :=
  Nat.eqb (String.length ("-" ++ zero_padded 2 (n / 60) ++ ":" ++ zero_padded 2 (n mod 60))) 6.

(** * Properties *)

(** ** Results *)

Lemma returns_not_raises {A : Type} (r : result A) (e : exn) :
  raises r e -> ~ returns r.
Proof.
  unfold raises, returns. intros -> [a H]. discriminate H.
Qed.

Lemma bind_ok {A B : Type} (a : A) (k : A -> result B) : bind (Ok a) k = k a.
Proof. reflexivity. Qed.

Lemma bind_raise {A B : Type} (e : exn) (k : A -> result B) : bind (Raise e) k = Raise e.
Proof. reflexivity. Qed.

(** ** Attribute access *)

Lemma getattr_begin self : getattr self "begin" = Ok (begin self).
Proof. reflexivity. Qed.

Lemma getattr_end self : getattr self "end" = Ok (end_ self).
Proof. reflexivity. Qed.

Lemma getattr_summary self : getattr self "summary" = Ok (summary self).
Proof. reflexivity. Qed.

Lemma getattr_timezone self : getattr self "timezone" = Ok (timezone self).
Proof. reflexivity. Qed.

Lemma getattr_location self : getattr self "location" = Ok (location self).
Proof. reflexivity. Qed.

(** No instance has an attribute [interval]. *)
Lemma getattr_interval self : getattr self "interval" = Raise AttributeError.
Proof. reflexivity. Qed.

(** ** Bounded checks by computation *)

Lemma forallb_range (P : Z -> bool) (lo len : nat) :
  forallb P (map Z.of_nat (seq lo len)) = true ->
  forall n : Z, Z.of_nat lo <= n < Z.of_nat (lo + len) -> P n = true.
Proof.
  intros Hall n Hn.
  rewrite forallb_forall in Hall. apply Hall.
  rewrite in_map_iff. exists (Z.to_nat n). split.
  - apply Z2Nat.id. lia.
  - apply in_seq. lia.
Qed.

(** ** The UTC offset *)

Lemma west_groups_ok_all : forallb west_groups_ok (map Z.of_nat (seq 1 1439)) = true.
Proof. vm_compute. reflexivity. Qed.

Lemma re_match_west (off : Z) :
  -1440 < off < 0 ->
  re_match offset_regex (strftime_z off)
  = Some (["-" ++ zero_padded 2 (- off / 60); zero_padded 2 (- off mod 60)], EmptyString).
Proof.
  intros Hoff.
  assert (H : west_groups_ok (- off) = true).
  { apply (forallb_range _ 1 1439 west_groups_ok_all). simpl. lia. }
  unfold west_groups_ok in H. rewrite Z.opp_involutive in H.
  destruct (re_match offset_regex (strftime_z off)) as [[groups rest]|]; [|discriminate].
  destruct groups as [|g1 [|g2 [|g3 more]]]; try discriminate.
  destruct rest; [|discriminate].
  apply andb_true_iff in H. destruct H as [H1 H2].
  apply String.eqb_eq in H1. apply String.eqb_eq in H2.
  now subst.
Qed.

(** The [%z] text of an offset that is not negative starts with a plus
    sign, which the pattern refuses. *)
Lemma re_match_east (off : Z) :
  0 <= off -> re_match offset_regex (strftime_z off) = None.
Proof.
  intros Hoff. unfold strftime_z.
  destruct (off <? 0) eqn:E; [apply Z.ltb_lt in E; lia|].
  reflexivity.
Qed.

(** What [utc_offset] does once the zone and its offset are known. *)
Lemma utc_offset_unfold (tzdata : zoneinfo) (self : EventPacket)
      (name : string) (z : zone) (t : datetime) (off : Z) :
  timezone self = VStr name -> tzdata name = Some z -> z t = Ok off ->
  utc_offset tzdata self (VDatetime t)
  = match re_match offset_regex (strftime_z off) with
    | Some (groups, _) => Ok (join ":" groups)
    | None => Raise ValueError
    end.
Proof.
  intros Hname Hzone Hoff.
  unfold utc_offset. rewrite getattr_timezone, Hname. simpl.
  rewrite Hzone. simpl. rewrite Hoff. reflexivity.
Qed.

Lemma utc_offset_west (tzdata : zoneinfo) (self : EventPacket)
      (name : string) (z : zone) (t : datetime) (off : Z) :
  timezone self = VStr name -> tzdata name = Some z -> z t = Ok off ->
  -1440 < off < 0 ->
  utc_offset tzdata self (VDatetime t)
  = Ok ("-" ++ zero_padded 2 (- off / 60) ++ ":" ++ zero_padded 2 (- off mod 60)).
Proof.
  intros Hname Hzone Hoff Hrange.
  rewrite (utc_offset_unfold _ _ _ _ _ _ Hname Hzone Hoff).
  rewrite (re_match_west _ Hrange). reflexivity.
Qed.

Lemma in_years_true (first last : Z) (d : datetime) :
  valid_datetime d -> first <= year d <= last -> in_years first last d = true.
Proof.
  intros V H. unfold in_years. unfold valid_datetime in V. rewrite V. simpl.
  rewrite andb_true_iff, !Z.leb_le. lia.
Qed.

Lemma los_angeles_in_years (elsewhere : zone) (d : datetime) :
  valid_datetime d -> 2007 <= year d <= 2037 ->
  los_angeles elsewhere d = Ok (if us_dst d then -420 else -480).
Proof.
  intros V H. unfold los_angeles. now rewrite in_years_true.
Qed.

Lemma us_dst_july (t : datetime) : month t = 7 -> us_dst t = true.
Proof. intros H. unfold us_dst. rewrite H. reflexivity. Qed.

Lemma us_dst_january (t : datetime) : month t = 1 -> us_dst t = false.
Proof. intros H. unfold us_dst. rewrite H. reflexivity. Qed.

(** C1, as the code has it: for a zone whose offset at the local time [t] is
    negative (west of Greenwich), [utc_offset] returns that offset as
    [-HH:MM]; for America/Los_Angeles, on the valid local times of 2007 to
    2037, that is "-07:00" on a July date and "-08:00" on a January date,
    whatever the zone does in other years. *)
Theorem utc_offset_west_of_greenwich :
  (forall (tzdata : zoneinfo) (self : EventPacket) (name : string) (z : zone)
          (t : datetime) (off : Z),
      timezone self = VStr name -> tzdata name = Some z -> z t = Ok off ->
      -1440 < off < 0 ->
      utc_offset tzdata self (VDatetime t)
      = Ok ("-" ++ zero_padded 2 (- off / 60) ++ ":" ++ zero_padded 2 (- off mod 60)))
  /\ (forall (elsewhere : zone) (self : EventPacket) (t : datetime),
         timezone self = VStr "America/Los_Angeles" ->
         valid_datetime t -> 2007 <= year t <= 2037 ->
         (month t = 7 ->
          utc_offset (zoneinfo_extract elsewhere) self (VDatetime t) = Ok "-07:00")
         /\ (month t = 1 ->
             utc_offset (zoneinfo_extract elsewhere) self (VDatetime t) = Ok "-08:00")).
Proof.
  split.
  - exact utc_offset_west.
  - intros elsewhere self t Hname Hvalid Hyear. split; intros Hmonth.
    + rewrite (utc_offset_west (zoneinfo_extract elsewhere) self _
                 (los_angeles elsewhere) t (-420) Hname);
        [reflexivity | reflexivity | | lia].
      rewrite (los_angeles_in_years elsewhere t Hvalid Hyear).
      now rewrite us_dst_july.
    + rewrite (utc_offset_west (zoneinfo_extract elsewhere) self _
                 (los_angeles elsewhere) t (-480) Hname);
        [reflexivity | reflexivity | | lia].
      rewrite (los_angeles_in_years elsewhere t Hvalid Hyear).
      now rewrite us_dst_january.
Qed.

Lemma utc_offset_west_of_greenwich_witness :
  utc_offset sample_zoneinfo shift_event (at_time 2019 7 14 15 0 0) = Ok "-07:00"
  /\ utc_offset sample_zoneinfo shift_event (at_time 2019 1 14 15 0 0) = Ok "-08:00".
Proof.
  split.
  - apply (proj2 utc_offset_west_of_greenwich not_in_extract shift_event
             (mkdatetime 2019 7 14 15 0 0 0));
      [reflexivity | reflexivity | simpl; lia | reflexivity].
  - apply (proj2 utc_offset_west_of_greenwich not_in_extract shift_event
             (mkdatetime 2019 1 14 15 0 0 0));
      [reflexivity | reflexivity | simpl; lia | reflexivity].
Defined.

(** C1 as stated fails east of Greenwich: in Asia/Tokyo the offset on
    2019-07-14 is +09:00, and [utc_offset] raises instead of returning it. *)
Lemma utc_offset_tokyo_raises :
  sample_zoneinfo "Asia/Tokyo" = Some (tokyo not_in_extract)
  /\ tokyo not_in_extract (mkdatetime 2019 7 14 15 0 0 0) = Ok 540
  /\ strftime_z 540 = "+0900"
  /\ utc_offset sample_zoneinfo tokyo_event (at_time 2019 7 14 15 0 0) = Raise ValueError
  /\ ~ returns (utc_offset sample_zoneinfo tokyo_event (at_time 2019 7 14 15 0 0)).
Proof.
  repeat split.
  apply (returns_not_raises _ ValueError). reflexivity.
Qed.

(** C10: when the offset of the configured zone at [t] is not negative,
    [utc_offset] raises [ValueError] (the specification's FormatError): the
    pattern only accepts a text that starts with a minus sign. *)
Theorem utc_offset_not_negative_raises
        (tzdata : zoneinfo) (self : EventPacket) (name : string) (z : zone)
        (t : datetime) (off : Z) :
  timezone self = VStr name -> tzdata name = Some z -> z t = Ok off ->
  0 <= off ->
  utc_offset tzdata self (VDatetime t) = Raise ValueError.
Proof.
  intros Hname Hzone Hoff Hsign.
  rewrite (utc_offset_unfold _ _ _ _ _ _ Hname Hzone Hoff).
  now rewrite re_match_east.
Qed.

Lemma utc_offset_not_negative_raises_witness :
  utc_offset sample_zoneinfo (event_in "UTC" (at_time 2019 7 14 15 0 0) (at_time 2019 7 14 23 30 0) (VStr "X"))
             (at_time 2019 7 14 15 0 0) = Raise ValueError.
Proof.
  apply (utc_offset_not_negative_raises sample_zoneinfo _ "UTC" (fixed_offset 0) _ 0);
    [reflexivity | reflexivity | reflexivity | lia].
Defined.

(** ** Wire formatting *)

(** The first statement of [google_calendar_format] reads [self.interval]. *)
Lemma google_calendar_format_no_interval (tzdata : zoneinfo) (self : EventPacket) :
  google_calendar_format tzdata self
  = (interval <- getattr self "interval" ;; Raise AttributeError).
Proof.
  unfold google_calendar_format. now rewrite getattr_interval.
Qed.

(** C2 fails on the code: [google_calendar_format] reads [self.interval],
    an attribute no instance has, and raises [AttributeError] for every
    event before any offset is computed or any timestamp is rendered. *)
Theorem google_calendar_format_raises (tzdata : zoneinfo) (self : EventPacket) :
  google_calendar_format tzdata self = Raise AttributeError.
Proof.
  rewrite google_calendar_format_no_interval, getattr_interval. reflexivity.
Qed.

(** C3 fails on the code: [form_submit_body] calls [google_calendar_format]
    for the start entry and raises [AttributeError] with it, so no body is
    produced from which the timestamps could be read back. *)
Theorem form_submit_body_raises (tzdata : zoneinfo) (self : EventPacket) :
  form_submit_body tzdata self = Raise AttributeError.
Proof.
  unfold form_submit_body.
  rewrite getattr_summary, bind_ok.
  rewrite google_calendar_format_no_interval, getattr_interval. reflexivity.
Qed.

(** ** Construction *)

Lemma from_string_parsed (s1 s2 t : string) (b e : datetime) :
  strptime s1 = Ok b -> strptime s2 = Ok e ->
  from_string (VTuple [VStr s1; VStr s2]) (VStr t)
  = Ok (event_in "America/Los_Angeles" (VDatetime b) (VDatetime e) (VStr t)).
Proof.
  intros Hb He. unfold from_string, new, __init__. simpl.
  rewrite Hb, He. reflexivity.
Qed.

(** C4: on a mapping whose keys [start], [end] and [summary] hold the
    strings [s1], [s2] and [t], whatever other keys it has, [from_dict]
    gives what [from_string((s1, s2), t)] gives; when both strings parse,
    that is the event of the two parsed timestamps and [t]. *)
Theorem from_dict_as_from_string (entries : list (string * value)) (s1 s2 t : string) :
  assoc "start" entries = Some (VStr s1) ->
  assoc "end" entries = Some (VStr s2) ->
  assoc "summary" entries = Some (VStr t) ->
  from_dict (VDict entries) = from_string (VTuple [VStr s1; VStr s2]) (VStr t)
  /\ forall b e : datetime,
       strptime s1 = Ok b -> strptime s2 = Ok e ->
       from_dict (VDict entries)
       = Ok (event_in "America/Los_Angeles" (VDatetime b) (VDatetime e) (VStr t)).
Proof.
  intros Hs He Ht.
  assert (Heq : from_dict (VDict entries) = from_string (VTuple [VStr s1; VStr s2]) (VStr t)).
  { unfold from_dict, getitem. simpl. rewrite Hs, He, Ht. reflexivity. }
  split; [exact Heq|].
  intros b e Hb Hend. rewrite Heq. now apply from_string_parsed.
Qed.

Lemma from_dict_as_from_string_witness :
  from_dict flat_example
  = from_string (VTuple [VStr "2019-07-14T15:00:00"; VStr "2019-07-14T23:30:00"]) (VStr "X")
  /\ from_dict flat_example = Ok shift_event.
Proof.
  destruct (from_dict_as_from_string
              [ ("id", VInt 7); ("start", VStr "2019-07-14T15:00:00");
                ("end", VStr "2019-07-14T23:30:00"); ("summary", VStr "X") ]
              "2019-07-14T15:00:00" "2019-07-14T23:30:00" "X"
              eq_refl eq_refl eq_refl) as [Heq Hparsed].
  split.
  - exact Heq.
  - exact (Hparsed (mkdatetime 2019 7 14 15 0 0 0) (mkdatetime 2019 7 14 23 30 0 0)
                   eq_refl eq_refl).
Defined.

(** A call of [from_string] with three arguments never reaches its body. *)
Lemma call_from_string_three (a b c : value) :
  call_from_string [a; b; c] = Raise TypeError.
Proof. reflexivity. Qed.

Lemma from_freebusy_never_returns (response : value) : ~ returns (from_freebusy response).
Proof.
  intros [ev H]. unfold from_freebusy in H.
  destruct (getitem response "start") as [s|]; [|discriminate].
  simpl in H. destruct (getitem s "dateTime") as [sd|]; [|discriminate].
  simpl in H. destruct (getitem response "end") as [e|]; [|discriminate].
  simpl in H. destruct (getitem e "dateTime") as [ed|]; [|discriminate].
  simpl in H. destruct (getitem response "summary") as [t|]; discriminate.
Qed.

(** C5 fails on the code: [from_freebusy] extracts the two nested strings
    and the summary, then passes them to [from_string] as three arguments
    instead of a pair and a summary; the call raises [TypeError], on the
    example of the specification as on every response.  The same strings
    passed as a pair give the event the claim describes. *)
Theorem from_freebusy_example_raises :
  from_freebusy freebusy_example = Raise TypeError
  /\ (forall response : value, ~ returns (from_freebusy response))
  /\ from_string (VTuple [VStr "2019-07-14T15:00:00"; VStr "2019-07-14T23:30:00"]) (VStr "X")
     = Ok shift_event.
Proof.
  split; [reflexivity|]. split; [exact from_freebusy_never_returns | reflexivity].
Qed.

(** The guard of [__init__] raises only when both of its tests fail. *)
Lemma init_guard (interval : interval_arg) (text siu loc : value) :
  arg_is_tuple interval = false -> is_str text = false ->
  __init__ interval text siu loc = Raise ValueError.
Proof.
  intros Hi Hs. unfold __init__. rewrite Hi, Hs. reflexivity.
Qed.

(** C7 fails on the code: the guard of [__init__] is
    [not (isinstance(interval, tuple) or isinstance(summary, str))], so one
    passing test is enough.  A pair of timestamps with the summary [5] is
    accepted and [5] is stored as the summary; a two-element list is
    accepted as the interval when the summary is text. *)
Theorem init_accepts_malformed :
  new (Given (VTuple [at_time 2019 7 14 15 0 0; at_time 2019 7 14 23 30 0])) (VInt 5)
  = Ok (event_in "America/Los_Angeles" (at_time 2019 7 14 15 0 0) (at_time 2019 7 14 23 30 0) (VInt 5))
  /\ new (Given (VList [at_time 2019 7 14 15 0 0; at_time 2019 7 14 23 30 0])) (VStr "X")
     = Ok shift_event.
Proof. split; reflexivity. Qed.

(** ** Comparison *)

Lemma datetime_eqb_eq (a b : datetime) : datetime_eqb a b = true <-> a = b.
Proof.
  destruct a, b. unfold datetime_eqb. simpl.
  rewrite !andb_true_iff, !Z.eqb_eq. split.
  - intros [[[[[[? ?] ?] ?] ?] ?] ?]. now subst.
  - intros H. injection H as -> -> -> -> -> -> ->. tauto.
Qed.

Lemma eq_instances (a b : EventPacket) :
  __eq__ a (Instance b)
  = Ok (py_eq (begin a) (begin b) && py_eq (end_ a) (end_ b) && py_eq (summary a) (summary b)).
Proof.
  unfold __eq__. rewrite !getattr_begin, !getattr_end, !getattr_summary. simpl.
  destruct (py_eq (begin a) (begin b)); simpl; [|reflexivity].
  destruct (py_eq (end_ a) (end_ b)); reflexivity.
Qed.

(** C6: against a value that is not an [EventPacket], [__eq__] raises
    [ValueError] (the specification's TypeMismatch) and so returns nothing,
    [False] included; against an [EventPacket] it returns a truth value,
    which is [True] exactly when [begin], [end] and [summary] compare equal
    pairwise. *)
Theorem eq_spec :
  (forall (self : EventPacket) (v : value),
      __eq__ self (Plain v) = Raise ValueError /\ __eq__ self (Plain v) <> Ok false)
  /\ (forall a b : EventPacket,
         exists r : bool,
           __eq__ a (Instance b) = Ok r
           /\ (r = true <->
               py_eq (begin a) (begin b) = true
               /\ py_eq (end_ a) (end_ b) = true
               /\ py_eq (summary a) (summary b) = true)).
Proof.
  split.
  - intros self v. split; [reflexivity | discriminate].
  - intros a b. eexists. split; [apply eq_instances|].
    rewrite !andb_true_iff. tauto.
Qed.

(** On events holding timestamps and a text summary, comparing equal is
    being equal. *)
Lemma eq_timestamps (b1 e1 b2 e2 : datetime) (s1 s2 : string) (z1 z2 : string) :
  __eq__ (event_in z1 (VDatetime b1) (VDatetime e1) (VStr s1))
         (Instance (event_in z2 (VDatetime b2) (VDatetime e2) (VStr s2))) = Ok true
  <-> b1 = b2 /\ e1 = e2 /\ s1 = s2.
Proof.
  rewrite eq_instances. simpl.
  rewrite <- !datetime_eqb_eq, <- String.eqb_eq.
  split.
  - intros H. injection H as H. rewrite !andb_true_iff in H. tauto.
  - intros (-> & -> & ->). reflexivity.
Qed.

(** C8: [__lt__] returns [False] for every two events, whatever their
    intervals, and raises [ValueError] (the specification's TypeMismatch)
    when the right operand is not an [EventPacket]. *)
Theorem lt_spec :
  (forall a b : EventPacket, __lt__ a (Instance b) = Ok false)
  /\ (forall (a : EventPacket) (v : value), __lt__ a (Plain v) = Raise ValueError).
Proof. split; reflexivity. Qed.

(** ** Duration *)

Lemma time_elapsed_timestamps (self : EventPacket) (b e : datetime) :
  begin self = VDatetime b -> end_ self = VDatetime e ->
  time_elapsed self = Ok (total_seconds (datetime_sub e b)).
Proof.
  intros Hb He. unfold time_elapsed. rewrite getattr_end, getattr_begin, Hb, He.
  reflexivity.
Qed.

(** The example of the specification: 15:00:00 to 23:30:00 is 30600 s. *)
Lemma time_elapsed_shift : time_elapsed shift_event = Ok (Qmake 30600000000 1000000).
Proof. reflexivity. Qed.

Lemma half_not_whole : ~ is_whole (Qmake 500000 1000000).
Proof.
  intros [n H]. unfold Qeq in H. simpl in H. lia.
Qed.

(** C9 fails on the code: [time_elapsed] returns [total_seconds()], the
    duration with its fraction, although it is declared to return an [int].
    For an interval of half a second it returns 0.5, which is no whole
    number of seconds. *)
Theorem time_elapsed_half_second :
  time_elapsed half_second_event = Ok (Qmake 500000 1000000)
  /\ ~ is_whole (Qmake 500000 1000000).
Proof. split; [reflexivity | exact half_not_whole]. Qed.

(** The microseconds of a difference, before normalisation. *)
Lemma total_microseconds_new (d s u : Z) :
  total_microseconds (timedelta_new d s u) = (d * 86400 + s) * 1000000 + u.
Proof.
  unfold total_microseconds, timedelta_new. simpl.
  pose proof (Z.div_mod u 1000000 ltac:(lia)) as Hu.
  pose proof (Z.div_mod (s + u / 1000000) 86400 ltac:(lia)) as Hs.
  lia.
Qed.

(** ** The timestamp format read back *)

Lemma append_empty (s : string) : s ++ "" = s.
Proof. induction s as [|c s IH]; simpl; congruence. Qed.

Lemma match_chars_split (cs : list cclass) (g m r : string) :
  match_chars cs g = Some (m, r) -> g = m ++ r.
Proof.
  revert g m r. induction cs as [|k cs IH]; intros g m r H; simpl in H.
  - injection H as <- <-. reflexivity.
  - destruct g as [|c g]; [discriminate|].
    destruct (cclass_match k c); [|discriminate].
    destruct (match_chars cs g) as [[m' r']|] eqn:E; [|discriminate].
    injection H as <- <-. simpl. f_equal. now apply IH.
Qed.

Lemma match_chars_app (cs : list cclass) (g m r rest : string) :
  match_chars cs g = Some (m, r) -> match_chars cs (g ++ rest) = Some (m, r ++ rest).
Proof.
  revert g m r. induction cs as [|k cs IH]; intros g m r H; simpl in H.
  - injection H as <- <-. reflexivity.
  - destruct g as [|c g]; [discriminate|]. simpl.
    destruct (cclass_match k c); [|discriminate].
    destruct (match_chars cs g) as [[m' r']|] eqn:E; [|discriminate].
    injection H as <- <-. now rewrite (IH _ _ _ E).
Qed.

Lemma match_chars_app_none (cs : list cclass) (g rest : string) :
  match_chars cs g = None -> (List.length cs <= String.length g)%nat ->
  match_chars cs (g ++ rest) = None.
Proof.
  revert g. induction cs as [|k cs IH]; intros g H Hlen; simpl in H.
  - discriminate.
  - destruct g as [|c g]; [simpl in Hlen; lia|]. simpl.
    destruct (cclass_match k c); [|reflexivity].
    destruct (match_chars cs g) as [[m' r']|] eqn:E; [discriminate|].
    rewrite IH; [reflexivity | exact E | simpl in Hlen; lia].
Qed.

Lemma re_match_group_cons (a : list cclass) (alts : list (list cclass)) (re' : regex) (s : string) :
  re_match (Group (a :: alts) :: re') s
  = match match_chars a s with
    | Some (m, r) =>
        match re_match re' r with
        | Some (gs, r') => Some (m :: gs, r')
        | None => re_match (Group alts :: re') s
        end
    | None => re_match (Group alts :: re') s
    end.
Proof. reflexivity. Qed.

(** A group consumes a text it matches in full at the first try, provided
    the rest of the pattern matches what follows. *)
Lemma group_first_match (alts : list (list cclass)) (g rest : string)
      (re' : regex) (gs : list string) (r' : string) :
  first_full_match alts g = true ->
  re_match re' rest = Some (gs, r') ->
  re_match (Group alts :: re') (g ++ rest) = Some (g :: gs, r').
Proof.
  intros Hfull Hcont. induction alts as [|a alts IH]; simpl in Hfull; [discriminate|].
  rewrite re_match_group_cons.
  destruct (match_chars a g) as [[m r]|] eqn:E.
  - destruct r; [|discriminate].
    rewrite (match_chars_app _ _ _ _ rest E). simpl. rewrite Hcont.
    apply match_chars_split in E. rewrite E.
    now rewrite append_empty.
  - apply andb_true_iff in Hfull. destruct Hfull as [Hlen Hrest].
    apply Nat.leb_le in Hlen.
    rewrite (match_chars_app_none _ _ rest E Hlen). now apply IH.
Qed.

Lemma year_fields : forallb (field_ok 4 0) (map Z.of_nat (seq 1 9999)) = true.
Proof. vm_compute. reflexivity. Qed.

Lemma month_fields : forallb (field_ok 2 1) (map Z.of_nat (seq 1 12)) = true.
Proof. vm_compute. reflexivity. Qed.

Lemma day_fields : forallb (field_ok 2 2) (map Z.of_nat (seq 1 31)) = true.
Proof. vm_compute. reflexivity. Qed.

Lemma hour_fields : forallb (field_ok 2 3) (map Z.of_nat (seq 0 24)) = true.
Proof. vm_compute. reflexivity. Qed.

Lemma minute_fields : forallb (field_ok 2 4) (map Z.of_nat (seq 0 60)) = true.
Proof. vm_compute. reflexivity. Qed.

Lemma second_fields : forallb (field_ok 2 5) (map Z.of_nat (seq 0 60)) = true.
Proof. vm_compute. reflexivity. Qed.

Lemma field_ok_elim (w k : nat) (n : Z) :
  field_ok w k n = true ->
  first_full_match (iso_group k) (zero_padded w n) = true
  /\ int_of_group (zero_padded w n) = n.
Proof.
  unfold field_ok. rewrite andb_true_iff, Z.eqb_eq. tauto.
Qed.

Lemma days_in_month_le_31 (y m : Z) : days_in_month y m <= 31.
Proof.
  unfold days_in_month.
  destruct (m =? 2); [destruct (is_leap y); lia|].
  destruct ((m =? 4) || (m =? 6) || (m =? 9) || (m =? 11)); lia.
Qed.

(** The fields of a valid timestamp are rendered as texts that the groups
    of the pattern match and that read back as the fields. *)
Lemma valid_fields (d : datetime) :
  valid_datetime d ->
  field_ok 4 0 (year d) = true /\ field_ok 2 1 (month d) = true
  /\ field_ok 2 2 (day d) = true /\ field_ok 2 3 (hour d) = true
  /\ field_ok 2 4 (minute d) = true /\ field_ok 2 5 (second d) = true.
Proof.
  unfold valid_datetime, valid_datetimeb. rewrite !andb_true_iff, !Z.leb_le.
  intros V. pose proof (days_in_month_le_31 (year d) (month d)) as Hdim.
  repeat split.
  - apply (forallb_range _ 1 9999 year_fields). simpl. lia.
  - apply (forallb_range _ 1 12 month_fields). simpl. lia.
  - apply (forallb_range _ 1 31 day_fields). simpl. lia.
  - apply (forallb_range _ 0 24 hour_fields). simpl. lia.
  - apply (forallb_range _ 0 60 minute_fields). simpl. lia.
  - apply (forallb_range _ 0 60 second_fields). simpl. lia.
Qed.

Lemma strftime_iso (d : datetime) :
  strftime d iso_format
  = zero_padded 4 (year d) ++ String "-" (
    zero_padded 2 (month d) ++ String "-" (
    zero_padded 2 (day d) ++ String "T" (
    zero_padded 2 (hour d) ++ String ":" (
    zero_padded 2 (minute d) ++ String ":" (
    zero_padded 2 (second d) ++ EmptyString))))).
Proof. reflexivity. Qed.

Lemma re_match_iso (d : datetime) :
  valid_datetime d ->
  re_match iso_regex (strftime d iso_format)
  = Some ([ zero_padded 4 (year d); zero_padded 2 (month d); zero_padded 2 (day d);
            zero_padded 2 (hour d); zero_padded 2 (minute d); zero_padded 2 (second d) ],
          EmptyString).
Proof.
  intros V. destruct (valid_fields d V) as (Hy & Hm & Hd & HH & HM & HS).
  apply field_ok_elim in Hy, Hm, Hd, HH, HM, HS.
  rewrite strftime_iso. unfold iso_regex.
  apply group_first_match; [apply Hy|].
  change (re_match (Lit [Exactly "-"%char] :: ?re) (String "-" ?s)) with (re_match re s).
  apply group_first_match; [apply Hm|].
  change (re_match (Lit [Exactly "-"%char] :: ?re) (String "-" ?s)) with (re_match re s).
  apply group_first_match; [apply Hd|].
  change (re_match (Lit [AnyCase "T"%char "t"%char] :: ?re) (String "T" ?s)) with (re_match re s).
  apply group_first_match; [apply HH|].
  change (re_match (Lit [Exactly ":"%char] :: ?re) (String ":" ?s)) with (re_match re s).
  apply group_first_match; [apply HM|].
  change (re_match (Lit [Exactly ":"%char] :: ?re) (String ":" ?s)) with (re_match re s).
  apply group_first_match; [apply HS|].
  reflexivity.
Qed.

Lemma strptime_of_rendered (d : datetime) :
  valid_datetime d -> microsecond d = 0 ->
  strptime (strftime d iso_format) = Ok d.
Proof.
  intros V Hus. unfold strptime. rewrite (re_match_iso d V).
  destruct (valid_fields d V) as (Hy & Hm & Hd & HH & HM & HS).
  apply field_ok_elim in Hy, Hm, Hd, HH, HM, HS.
  rewrite (proj2 Hy), (proj2 Hm), (proj2 Hd), (proj2 HH), (proj2 HM), (proj2 HS).
  unfold datetime_new. destruct d as [y m dd h mi s us]. simpl in *. subst us.
  unfold valid_datetime in V. now rewrite V.
Qed.

(** X2: rendering a valid timestamp without microseconds in the format of
    the module and parsing the text back gives the timestamp. *)
Theorem strptime_strftime (d : datetime) :
  valid_datetime d -> microsecond d = 0 ->
  strptime (strftime d iso_format) = Ok d.
Proof.
  intros V Hus. now apply strptime_of_rendered.
Qed.

Lemma strptime_strftime_witness :
  strptime (strftime (mkdatetime 2019 7 14 15 0 0 0) iso_format)
  = Ok (mkdatetime 2019 7 14 15 0 0 0).
Proof.
  apply strptime_strftime; reflexivity.
Defined.

(** X3: building an event from the rendered texts of two valid timestamps
    without microseconds gives the event built from the timestamps
    themselves. *)
Theorem from_string_of_rendered (b e : datetime) (t : string) :
  valid_datetime b -> valid_datetime e -> microsecond b = 0 -> microsecond e = 0 ->
  from_string (VTuple [VStr (strftime b iso_format); VStr (strftime e iso_format)]) (VStr t)
  = new (Given (VTuple [VDatetime b; VDatetime e])) (VStr t).
Proof.
  intros Vb Ve Hb He.
  rewrite (from_string_parsed _ _ t b e);
    [reflexivity | now apply strptime_of_rendered | now apply strptime_of_rendered].
Qed.

Lemma from_string_of_rendered_witness :
  from_string (VTuple [VStr (strftime (mkdatetime 2019 7 14 15 0 0 0) iso_format);
                       VStr (strftime (mkdatetime 2019 7 14 23 30 0 0) iso_format)]) (VStr "X")
  = new (Given (VTuple [at_time 2019 7 14 15 0 0; at_time 2019 7 14 23 30 0])) (VStr "X").
Proof.
  apply from_string_of_rendered; reflexivity.
Defined.

(** ** What [from_string] accepts *)

Lemma datetime_new_ok (y m d H M S us : Z) (t : datetime) :
  datetime_new y m d H M S us = Ok t ->
  t = mkdatetime y m d H M S us /\ valid_datetime t.
Proof.
  unfold datetime_new, valid_datetime.
  destruct (valid_datetimeb (mkdatetime y m d H M S us)) eqn:V; [|discriminate].
  intros H0. injection H0 as <-. now split.
Qed.

(** A parsed timestamp passed the checks of the constructor and carries no
    microseconds. *)
Lemma strptime_ok (s : string) (d : datetime) :
  strptime s = Ok d -> valid_datetime d /\ microsecond d = 0.
Proof.
  unfold strptime.
  destruct (re_match iso_regex s) as [[groups rest]|]; [|discriminate].
  destruct groups as [|g1 [|g2 [|g3 [|g4 [|g5 [|g6 [|g7 more]]]]]]]; try discriminate.
  destruct rest; [|discriminate].
  intros H. apply datetime_new_ok in H. destruct H as [-> V]. now split.
Qed.

(** Parsing fails with [ValueError] only. *)
Lemma strptime_raise (s : string) (e : exn) : strptime s = Raise e -> e = ValueError.
Proof.
  unfold strptime, datetime_new.
  destruct (re_match iso_regex s) as [[groups rest]|]; [|congruence].
  destruct groups as [|g1 [|g2 [|g3 [|g4 [|g5 [|g6 [|g7 more]]]]]]]; try congruence.
  destruct rest; [|congruence].
  match goal with |- context [valid_datetimeb ?t] => destruct (valid_datetimeb t) end;
    congruence.
Qed.

Lemma py_strptime_ok (v x : value) :
  py_strptime v = Ok x ->
  exists (s : string) (d : datetime), v = VStr s /\ strptime s = Ok d /\ x = VDatetime d.
Proof.
  destruct v; simpl; try discriminate.
  destruct (strptime s) as [d|] eqn:E; simpl; [|discriminate].
  intros H. injection H as <-. now exists s, d.
Qed.

Lemma py_strptime_str (s : string) :
  (exists d : datetime, py_strptime (VStr s) = Ok (VDatetime d))
  \/ py_strptime (VStr s) = Raise ValueError.
Proof.
  simpl. destruct (strptime s) as [d|e] eqn:E; simpl.
  - left. now exists d.
  - right. now rewrite (strptime_raise _ _ E).
Qed.

Lemma from_string_inversion (interval text : value) (ev : EventPacket) :
  from_string interval text = Ok ev ->
  exists (s1 s2 t : string) (b e : datetime),
    py_iter interval = Ok [VStr s1; VStr s2] /\ text = VStr t
    /\ strptime s1 = Ok b /\ strptime s2 = Ok e
    /\ ev = event_in "America/Los_Angeles" (VDatetime b) (VDatetime e) (VStr t).
Proof.
  unfold from_string.
  destruct (negb (is_tuple interval || is_str text)); [discriminate|].
  destruct (py_iter interval) as [pending|]; simpl; [|discriminate].
  unfold new, __init__. simpl arg_is_tuple.
  destruct text as [| | |t| | | |]; simpl; try discriminate.
  destruct pending as [|p [|q rest]]; simpl; try discriminate.
  - destruct (py_strptime p); discriminate.
  - destruct (py_strptime p) as [x|] eqn:Ep; simpl; [|discriminate].
    destruct (py_strptime q) as [y|] eqn:Eq; simpl; [|discriminate].
    destruct rest as [|r rest]; simpl; [|destruct (py_strptime r); discriminate].
    intros H. injection H as <-.
    apply py_strptime_ok in Ep, Eq.
    destruct Ep as (s1 & b & -> & Hb & ->). destruct Eq as (s2 & e & -> & He & ->).
    now exists s1, s2, t, b, e.
Qed.

(** X4: [from_string] returns an event exactly when the interval iterates
    to two strings that both parse and the summary is text; the event then
    holds the two parsed timestamps and the summary, with the default zone
    and location.  The interval itself need not be a tuple. *)
Theorem from_string_returns_iff (interval text : value) (ev : EventPacket) :
  from_string interval text = Ok ev
  <-> exists (s1 s2 t : string) (b e : datetime),
        py_iter interval = Ok [VStr s1; VStr s2] /\ text = VStr t
        /\ strptime s1 = Ok b /\ strptime s2 = Ok e
        /\ ev = event_in "America/Los_Angeles" (VDatetime b) (VDatetime e) (VStr t).
Proof.
  split.
  - apply from_string_inversion.
  - intros (s1 & s2 & t & b & e & Hit & -> & Hb & He & ->).
    unfold from_string. rewrite orb_true_r. simpl. rewrite Hit. simpl.
    unfold new, __init__. simpl. rewrite Hb, He. reflexivity.
Qed.

(** X5: on a tuple of strings that has not exactly two items, [from_string]
    raises [ValueError], whatever the strings and the summary are. *)
Theorem from_string_wrong_length (strs : list string) (text : value) :
  List.length strs <> 2%nat ->
  from_string (VTuple (map VStr strs)) text = Raise ValueError.
Proof.
  intros Hlen. unfold from_string, new, __init__. simpl.
  destruct (is_str text); simpl; [|reflexivity].
  destruct strs as [|s1 [|s2 [|s3 rest]]]; simpl.
  - reflexivity.
  - destruct (py_strptime_str s1) as [[d H]|H]; simpl in H; rewrite H; reflexivity.
  - simpl in Hlen. congruence.
  - destruct (py_strptime_str s1) as [[d1 H1]|H1]; simpl in H1; rewrite H1; [|reflexivity].
    destruct (py_strptime_str s2) as [[d2 H2]|H2]; simpl in H2; rewrite H2; [|reflexivity].
    destruct (py_strptime_str s3) as [[d3 H3]|H3]; simpl in H3; rewrite H3; reflexivity.
Qed.

Lemma from_string_wrong_length_witness :
  from_string (VTuple (map VStr ["2019-07-14T15:00:00"; "2019-07-14T23:30:00"; "2019-07-15T08:00:00"]))
              (VStr "X") = Raise ValueError.
Proof.
  apply from_string_wrong_length. simpl. discriminate.
Defined.

(** X6: every event [from_string] returns holds two valid timestamps
    without microseconds, and its [time_elapsed] is a whole number of
    seconds. *)
Theorem from_string_whole_seconds (interval text : value) (ev : EventPacket) :
  from_string interval text = Ok ev ->
  exists (b e : datetime) (n : Z) (q : Q),
    begin ev = VDatetime b /\ end_ ev = VDatetime e
    /\ valid_datetime b /\ valid_datetime e
    /\ microsecond b = 0 /\ microsecond e = 0
    /\ time_elapsed ev = Ok q /\ Qeq q (inject_Z n).
Proof.
  intros H. apply from_string_inversion in H.
  destruct H as (s1 & s2 & t & b & e & _ & _ & Hb & He & ->).
  apply strptime_ok in Hb, He. destruct Hb as [Vb Ub], He as [Ve Ue].
  exists b, e,
    ((toordinal e - toordinal b) * 86400 + (seconds_of_day e - seconds_of_day b)),
    (total_seconds (datetime_sub e b)).
  repeat split; try assumption.
  unfold total_seconds, datetime_sub. rewrite total_microseconds_new, Ub, Ue.
  unfold Qeq. simpl. lia.
Qed.

Lemma from_string_whole_seconds_witness :
  exists (b e : datetime) (n : Z) (q : Q),
    begin shift_event = VDatetime b /\ end_ shift_event = VDatetime e
    /\ valid_datetime b /\ valid_datetime e
    /\ microsecond b = 0 /\ microsecond e = 0
    /\ time_elapsed shift_event = Ok q /\ Qeq q (inject_Z n).
Proof.
  apply (from_string_whole_seconds
           (VTuple [VStr "2019-07-14T15:00:00"; VStr "2019-07-14T23:30:00"]) (VStr "X")).
  reflexivity.
Defined.

(** ** What the other constructors refuse *)

(** X7: [from_dict] raises [ValueError] on anything that is not a
    dictionary, [KeyError] on a dictionary that lacks [start], [end] or
    [summary], whatever the other entries hold, and [TypeError] when all
    three are there with a text summary but [start] is not a string. *)
Theorem from_dict_refuses :
  (forall body : value, is_dict body = false -> from_dict body = Raise ValueError)
  /\ (forall entries : list (string * value),
         assoc "start" entries = None \/ assoc "end" entries = None
         \/ assoc "summary" entries = None ->
         from_dict (VDict entries) = Raise KeyError)
  /\ (forall (entries : list (string * value)) (v w : value) (t : string),
         assoc "start" entries = Some v -> is_str v = false ->
         assoc "end" entries = Some w -> assoc "summary" entries = Some (VStr t) ->
         from_dict (VDict entries) = Raise TypeError).
Proof.
  repeat split.
  - intros body H. unfold from_dict. now rewrite H.
  - intros entries H. unfold from_dict, getitem. simpl.
    destruct (assoc "start" entries) as [s|]; simpl; [|reflexivity].
    destruct (assoc "end" entries) as [e|]; simpl; [|reflexivity].
    destruct (assoc "summary" entries) as [t|]; simpl; [|reflexivity].
    destruct H as [H|[H|H]]; discriminate H.
  - intros entries v w t Hs Hv He Ht. unfold from_dict, getitem. simpl.
    rewrite Hs, He, Ht. simpl.
    unfold from_string, new, __init__. simpl.
    destruct v; try reflexivity. discriminate Hv.
Qed.

Lemma from_dict_refuses_witness :
  from_dict (VList [VStr "2019-07-14T15:00:00"; VStr "2019-07-14T23:30:00"]) = Raise ValueError
  /\ from_dict (VDict [("start", VStr "2019-07-14T15:00:00"); ("summary", VStr "X")])
     = Raise KeyError
  /\ from_dict freebusy_example = Raise TypeError.
Proof.
  split; [|split].
  - apply (proj1 from_dict_refuses). reflexivity.
  - apply (proj1 (proj2 from_dict_refuses)). right. left. reflexivity.
  - apply (proj2 (proj2 from_dict_refuses) _
             (VDict [("dateTime", VStr "2019-07-14T15:00:00")])
             (VDict [("dateTime", VStr "2019-07-14T23:30:00")]) "X"); reflexivity.
Defined.

(** X8: [__init__] returns an event exactly when the interval is a tuple
    or the summary is text, the interval iterates to two items and the
    zone argument iterates to two items; the event holds these items, the
    summary and the location unchanged.  Neither the type of the two items
    nor their order is checked. *)
Theorem init_returns_iff (v text siu loc : value) (ev : EventPacket) :
  __init__ (Given v) text siu loc = Ok ev
  <-> (is_tuple v || is_str text = true)
      /\ exists b e flag z : value,
           py_iter v = Ok [b; e] /\ py_iter siu = Ok [flag; z]
           /\ ev = mkEventPacket b e text flag z loc.
Proof.
  unfold __init__. simpl arg_is_tuple. split.
  - destruct (is_tuple v || is_str text); simpl; [|discriminate].
    destruct (py_iter v) as [items|]; simpl; [|discriminate].
    destruct items as [|b [|e [|x more]]]; simpl; try discriminate.
    destruct (py_iter siu) as [pair|]; simpl; [|discriminate].
    destruct pair as [|flag [|z [|x more]]]; simpl; try discriminate.
    intros H. injection H as <-. split; [reflexivity|].
    now exists b, e, flag, z.
  - intros (Hguard & b & e & flag & z & Hv & Hsiu & ->).
    rewrite Hguard. simpl. rewrite Hv. simpl. rewrite Hsiu. reflexivity.
Qed.

(** ** Equality of events *)

(** X9: on events whose [begin] and [end] are timestamps and whose summary
    is text, [__eq__] returns [True] exactly when these three are equal;
    the zone, the flag and the location play no part. *)
Theorem eq_ignores_zone (a b : EventPacket) (b1 e1 b2 e2 : datetime) (s1 s2 : string) :
  begin a = VDatetime b1 -> end_ a = VDatetime e1 -> summary a = VStr s1 ->
  begin b = VDatetime b2 -> end_ b = VDatetime e2 -> summary b = VStr s2 ->
  (__eq__ a (Instance b) = Ok true <-> b1 = b2 /\ e1 = e2 /\ s1 = s2)
  /\ (__eq__ a (Instance b) = Ok false <-> ~ (b1 = b2 /\ e1 = e2 /\ s1 = s2)).
Proof.
  intros Ha1 Ha2 Ha3 Hb1 Hb2 Hb3.
  rewrite eq_instances, Ha1, Ha2, Ha3, Hb1, Hb2, Hb3. simpl.
  set (r := datetime_eqb b1 b2 && datetime_eqb e1 e2 && (s1 =? s2)%string).
  assert (Hr : r = true <-> b1 = b2 /\ e1 = e2 /\ s1 = s2).
  { unfold r. rewrite !andb_true_iff, !datetime_eqb_eq, String.eqb_eq. tauto. }
  destruct r; split; split; intros H;
    try reflexivity; try discriminate; try (now apply Hr).
  - exfalso. apply H. now apply Hr.
  - apply Hr in H. discriminate.
  - intros K. apply Hr in K. discriminate.
Qed.

Lemma eq_ignores_zone_witness :
  (__eq__ shift_event (Instance tokyo_event) = Ok true
   <-> mkdatetime 2019 7 14 15 0 0 0 = mkdatetime 2019 7 14 15 0 0 0
       /\ mkdatetime 2019 7 14 23 30 0 0 = mkdatetime 2019 7 14 23 30 0 0 /\ "X" = "X")
  /\ (__eq__ shift_event (Instance tokyo_event) = Ok false
      <-> ~ (mkdatetime 2019 7 14 15 0 0 0 = mkdatetime 2019 7 14 15 0 0 0
             /\ mkdatetime 2019 7 14 23 30 0 0 = mkdatetime 2019 7 14 23 30 0 0 /\ "X" = "X")).
Proof.
  exact (eq_ignores_zone shift_event tokyo_event _ _ _ _ _ _
           eq_refl eq_refl eq_refl eq_refl eq_refl eq_refl).
Defined.

(** ** What [utc_offset] returns and refuses *)

Lemma west_length_ok_all : forallb west_length_ok (map Z.of_nat (seq 1 1439)) = true.
Proof. vm_compute. reflexivity. Qed.

Lemma zoneinfo_extract_bounded (elsewhere : zone) :
  (forall (d : datetime) (off : Z), elsewhere d = Ok off -> -1440 < off < 1440) ->
  offsets_bounded (zoneinfo_extract elsewhere).
Proof.
  intros Helse name z d off Hz Hoff. unfold zoneinfo_extract in Hz.
  destruct (name =? "America/Los_Angeles")%string.
  { injection Hz as <-. unfold los_angeles in Hoff.
    destruct (in_years 2007 2037 d); [|now apply (Helse d)].
    destruct (us_dst d); injection Hoff as <-; lia. }
  destruct (name =? "UTC")%string.
  { injection Hz as <-. injection Hoff as <-. lia. }
  destruct (name =? "Asia/Tokyo")%string; [|discriminate].
  injection Hz as <-. unfold tokyo in Hoff.
  destruct (in_years 1952 2037 d); [|now apply (Helse d)].
  injection Hoff as <-. lia.
Qed.

Lemma sample_zoneinfo_bounded : offsets_bounded sample_zoneinfo.
Proof.
  apply zoneinfo_extract_bounded. intros d off H. discriminate H.
Qed.

(** X10: over a database whose offsets stay within a day, every string
    [utc_offset] returns is a negative offset written [-HH:MM], six
    characters long; no offset with a plus sign is ever returned. *)
Theorem utc_offset_returns_west (tzdata : zoneinfo) (self : EventPacket)
        (time_object : value) (s : string) :
  offsets_bounded tzdata ->
  utc_offset tzdata self time_object = Ok s ->
  exists (name : string) (z : zone) (t : datetime) (off : Z),
    timezone self = VStr name /\ tzdata name = Some z
    /\ time_object = VDatetime t /\ z t = Ok off
    /\ -1440 < off < 0
    /\ s = "-" ++ zero_padded 2 (- off / 60) ++ ":" ++ zero_padded 2 (- off mod 60)
    /\ String.length s = 6%nat.
Proof.
  intros Hbound H.
  assert (Hstep : utc_offset tzdata self time_object
                  = (tz <- pytz_timezone tzdata (timezone self) ;;
                     aware <- localize tz time_object ;;
                     match re_match offset_regex (strftime_z (snd aware)) with
                     | Some (groups, _) => Ok (join ":" groups)
                     | None => Raise ValueError
                     end)) by reflexivity.
  destruct (timezone self) as [| | |name| | | |] eqn:Hname;
    try (rewrite Hstep in H; discriminate H).
  destruct (tzdata name) as [z|] eqn:Hz;
    [|rewrite Hstep in H; simpl in H; rewrite Hz in H; discriminate H].
  destruct time_object as [| | | |t| | |];
    try (rewrite Hstep in H; simpl in H; rewrite Hz in H; discriminate H).
  destruct (z t) as [off|] eqn:Hoff;
    [|rewrite Hstep in H; simpl in H; rewrite Hz in H; simpl in H; rewrite Hoff in H;
      discriminate H].
  clear Hstep. rewrite (utc_offset_unfold _ _ _ _ _ _ Hname Hz Hoff) in H.
  pose proof (Hbound name z t off Hz Hoff) as Hrange.
  destruct (Z.ltb_spec off 0) as [Hneg|Hpos].
  - rewrite re_match_west in H by lia. simpl in H. injection H as <-.
    exists name, z, t, off. repeat split; try assumption; try lia.
    assert (Hlen : west_length_ok (- off) = true).
    { apply (forallb_range _ 1 1439 west_length_ok_all). simpl. lia. }
    unfold west_length_ok in Hlen. apply Nat.eqb_eq in Hlen. exact Hlen.
  - rewrite re_match_east in H by lia. discriminate H.
Qed.

Lemma utc_offset_returns_west_witness :
  exists (name : string) (z : zone) (t : datetime) (off : Z),
    timezone shift_event = VStr name /\ sample_zoneinfo name = Some z
    /\ at_time 2019 7 14 15 0 0 = VDatetime t /\ z t = Ok off
    /\ -1440 < off < 0
    /\ "-07:00" = "-" ++ zero_padded 2 (- off / 60) ++ ":" ++ zero_padded 2 (- off mod 60)
    /\ String.length "-07:00" = 6%nat.
Proof.
  apply (utc_offset_returns_west sample_zoneinfo shift_event (at_time 2019 7 14 15 0 0) "-07:00").
  - exact sample_zoneinfo_bounded.
  - reflexivity.
Defined.

(** X11: [utc_offset] raises [UnknownTimeZoneError] when the zone of the
    event is [None] or a name the database does not have, whatever the
    time is, and [AttributeError] when the zone is known and the time is
    not a datetime. *)
Theorem utc_offset_refuses (tzdata : zoneinfo) (self : EventPacket) (time_object : value) :
  (timezone self = VNone -> utc_offset tzdata self time_object = Raise UnknownTimeZoneError)
  /\ (forall name : string,
         timezone self = VStr name -> tzdata name = None ->
         utc_offset tzdata self time_object = Raise UnknownTimeZoneError)
  /\ (forall (name : string) (z : zone),
         timezone self = VStr name -> tzdata name = Some z ->
         is_datetime time_object = false ->
         utc_offset tzdata self time_object = Raise AttributeError).
Proof.
  unfold utc_offset. rewrite getattr_timezone. simpl. repeat split.
  - intros ->. reflexivity.
  - intros name -> Hz. simpl. now rewrite Hz.
  - intros name z -> Hz Ht. simpl. rewrite Hz. simpl.
    destruct time_object; try reflexivity. discriminate Ht.
Qed.

Lemma utc_offset_refuses_witness :
  utc_offset sample_zoneinfo
             (event_in "Mars/Olympus" (at_time 2019 7 14 15 0 0) (at_time 2019 7 14 23 30 0) (VStr "X"))
             (at_time 2019 7 14 15 0 0) = Raise UnknownTimeZoneError
  /\ utc_offset sample_zoneinfo shift_event (VStr "2019-07-14T15:00:00") = Raise AttributeError.
Proof.
  split.
  - apply (proj1 (proj2 (utc_offset_refuses sample_zoneinfo _ _)) "Mars/Olympus");
      reflexivity.
  - apply (proj2 (proj2 (utc_offset_refuses sample_zoneinfo _ _)) "America/Los_Angeles"
             (los_angeles not_in_extract));
      reflexivity.
Defined.

(** ** Display *)

(** X12: [__repr__] raises [AttributeError] for every event, whatever the
    attributes hold: like [google_calendar_format] it reads
    [self.interval], which no instance has. *)
Theorem repr_raises (format_value : value -> string) (self : EventPacket) :
  __repr__ format_value self = Raise AttributeError.
Proof.
  unfold __repr__. rewrite getattr_summary, bind_ok, getattr_interval. reflexivity.
Qed.

(** ** Elapsed time and the order of timestamps *)

Lemma days_in_month_bounds (y m : Z) : 28 <= days_in_month y m <= 31.
Proof.
  unfold days_in_month.
  destruct (m =? 2); [destruct (is_leap y); lia|].
  destruct ((m =? 4) || (m =? 6) || (m =? 9) || (m =? 11)); lia.
Qed.

Lemma days_before_month_from_step (y : Z) (k : nat) :
  days_before_month_from y (S k)
  = days_before_month_from y k + days_in_month y (Z.of_nat (S k)).
Proof. reflexivity. Qed.

Lemma days_before_month_from_mono (y : Z) (k1 k2 : nat) :
  (k1 <= k2)%nat -> days_before_month_from y k1 <= days_before_month_from y k2.
Proof.
  induction 1 as [|k2 _ IH]; [lia|].
  rewrite days_before_month_from_step.
  pose proof (days_in_month_bounds y (Z.of_nat (S k2))). lia.
Qed.

Lemma days_before_month_from_12 (y : Z) :
  days_before_month_from y 12 = 365 + (if is_leap y then 1 else 0).
Proof.
  unfold days_before_month_from, days_in_month. simpl.
  destruct (is_leap y); reflexivity.
Qed.

Lemma year_length (y : Z) :
  days_before_year (y + 1) = days_before_year y + 365 + (if is_leap y then 1 else 0).
Proof.
  unfold days_before_year, is_leap. cbv zeta.
  replace (y + 1 - 1) with y by lia.
  destruct (Z.eqb_spec (y mod 4) 0), (Z.eqb_spec (y mod 100) 0), (Z.eqb_spec (y mod 400) 0);
    simpl; Z.div_mod_to_equations; lia.
Qed.

Lemma days_before_year_mono (y1 y2 : Z) :
  y1 <= y2 -> days_before_year y1 <= days_before_year y2.
Proof.
  intros H. unfold days_before_year. cbv zeta.
  Z.div_mod_to_equations. lia.
Qed.

(** Day of the year of a valid date. *)
Lemma day_of_year_bounds (y m d : Z) :
  1 <= m <= 12 -> 1 <= d <= days_in_month y m ->
  1 <= days_before_month y m + d <= 365 + (if is_leap y then 1 else 0).
Proof.
  intros Hm Hd. unfold days_before_month.
  pose proof (days_before_month_from_mono y 0 (Z.to_nat (m - 1)) ltac:(lia)) as H0.
  simpl in H0.
  pose proof (days_before_month_from_mono y (S (Z.to_nat (m - 1))) 12 ltac:(lia)) as H12.
  rewrite days_before_month_from_12, days_before_month_from_step in H12.
  replace (Z.of_nat (S (Z.to_nat (m - 1)))) with m in H12 by lia.
  lia.
Qed.

Lemma days_before_month_next (y m1 m2 : Z) :
  1 <= m1 -> m1 < m2 ->
  days_before_month y m1 + days_in_month y m1 <= days_before_month y m2.
Proof.
  intros H1 H12. unfold days_before_month.
  pose proof (days_before_month_from_mono y (S (Z.to_nat (m1 - 1))) (Z.to_nat (m2 - 1))
                ltac:(lia)) as H.
  rewrite days_before_month_from_step in H.
  replace (Z.of_nat (S (Z.to_nat (m1 - 1)))) with m1 in H by lia.
  exact H.
Qed.

Lemma valid_ranges (d : datetime) :
  valid_datetime d ->
  1 <= month d <= 12 /\ 1 <= day d <= days_in_month (year d) (month d)
  /\ 0 <= hour d <= 23 /\ 0 <= minute d <= 59 /\ 0 <= second d <= 59
  /\ 0 <= microsecond d <= 999999.
Proof.
  unfold valid_datetime, valid_datetimeb.
  rewrite !andb_true_iff, !Z.leb_le. lia.
Qed.

(** A later date has a greater ordinal. *)
Lemma toordinal_lt (a b : datetime) :
  valid_datetime a -> valid_datetime b ->
  year a < year b
  \/ (year a = year b /\ (month a < month b \/ (month a = month b /\ day a < day b))) ->
  toordinal a < toordinal b.
Proof.
  intros Va Vb H. apply valid_ranges in Va, Vb.
  destruct Va as (Ma & Da & _), Vb as (Mb & Db & _).
  pose proof (day_of_year_bounds _ _ _ Ma Da) as Ya.
  pose proof (day_of_year_bounds _ _ _ Mb Db) as Yb.
  unfold toordinal. destruct H as [Hy|[Hy [Hm|[Hm Hd]]]].
  - pose proof (year_length (year a)) as Hlen.
    pose proof (days_before_year_mono (year a + 1) (year b) ltac:(lia)). lia.
  - rewrite Hy in *.
    pose proof (days_before_month_next (year b) (month a) (month b) ltac:(lia) Hm). lia.
  - rewrite Hy, Hm in *. lia.
Qed.

Lemma lex_ltb_cons (x y : Z) (xs ys : list Z) :
  lex_ltb (x :: xs) (y :: ys) = true <-> x < y \/ (x = y /\ lex_ltb xs ys = true).
Proof.
  simpl. rewrite orb_true_iff, andb_true_iff, Z.ltb_lt, Z.eqb_eq. tauto.
Qed.

(** The order of two valid timestamps is the order of their instants. *)
Lemma instant_lt (a b : datetime) :
  valid_datetime a -> valid_datetime b ->
  datetime_ltb a b = true -> instant a < instant b.
Proof.
  intros Va Vb H.
  pose proof (valid_ranges a Va) as (_ & _ & Ha).
  pose proof (valid_ranges b Vb) as (_ & _ & Hb).
  unfold datetime_ltb, datetime_fields in H.
  unfold instant, seconds_of_day.
  rewrite !lex_ltb_cons in H.
  assert (Hcases :
            toordinal a < toordinal b
            \/ (toordinal a = toordinal b
                /\ (hour a < hour b
                    \/ (hour a = hour b
                        /\ (minute a < minute b
                            \/ (minute a = minute b
                                /\ (second a < second b
                                    \/ (second a = second b
                                        /\ microsecond a < microsecond b)))))))).
  { destruct H as [Hy|[Hy [Hm|[Hm [Hd|[Hd Hrest]]]]]].
    - left. apply toordinal_lt; auto.
    - left. apply toordinal_lt; auto.
    - left. apply toordinal_lt; auto.
    - right. split; [unfold toordinal; congruence|].
      simpl in Hrest. lia. }
  lia.
Qed.

Lemma datetime_trichotomy (a b : datetime) :
  datetime_ltb a b = true \/ a = b \/ datetime_ltb b a = true.
Proof.
  destruct a as [y1 m1 d1 h1 n1 s1 u1], b as [y2 m2 d2 h2 n2 s2 u2].
  unfold datetime_ltb, datetime_fields. simpl year. simpl month. simpl day.
  simpl hour. simpl minute. simpl second. simpl microsecond.
  rewrite !lex_ltb_cons.
  destruct (Z.lt_trichotomy y1 y2) as [?|[->|?]]; [tauto| |right; right; tauto].
  destruct (Z.lt_trichotomy m1 m2) as [?|[->|?]]; [tauto| |right; right; tauto].
  destruct (Z.lt_trichotomy d1 d2) as [?|[->|?]]; [tauto| |right; right; tauto].
  destruct (Z.lt_trichotomy h1 h2) as [?|[->|?]]; [tauto| |right; right; tauto].
  destruct (Z.lt_trichotomy n1 n2) as [?|[->|?]]; [tauto| |right; right; tauto].
  destruct (Z.lt_trichotomy s1 s2) as [?|[->|?]]; [tauto| |right; right; tauto].
  destruct (Z.lt_trichotomy u1 u2) as [?|[->|?]]; [tauto| |right; right; tauto].
  right. left. reflexivity.
Qed.

Lemma datetime_ltb_irrefl (a : datetime) : datetime_ltb a a = false.
Proof.
  unfold datetime_ltb, datetime_fields. simpl.
  rewrite !Z.ltb_irrefl, !Z.eqb_refl. reflexivity.
Qed.

Lemma time_elapsed_instants (self : EventPacket) (b e : datetime) :
  begin self = VDatetime b -> end_ self = VDatetime e ->
  time_elapsed self = Ok (Qmake (instant e - instant b) 1000000).
Proof.
  intros Hb He. rewrite (time_elapsed_timestamps self b e Hb He).
  unfold total_seconds, datetime_sub. rewrite total_microseconds_new.
  unfold instant. f_equal. f_equal. lia.
Qed.

(** X13: between valid timestamps, [time_elapsed] is positive exactly when
    [begin] is earlier than [end], zero exactly when they are the same
    timestamp, and negative exactly when [end] is earlier than [begin]. *)
Theorem time_elapsed_sign (self : EventPacket) (b e : datetime) :
  begin self = VDatetime b -> end_ self = VDatetime e ->
  valid_datetime b -> valid_datetime e ->
  exists q : Q,
    time_elapsed self = Ok q
    /\ (Qlt 0 q <-> datetime_ltb b e = true)
    /\ (Qeq q 0 <-> b = e)
    /\ (Qlt q 0 <-> datetime_ltb e b = true).
Proof.
  intros Hb He Vb Ve.
  exists (Qmake (instant e - instant b) 1000000).
  split; [now apply time_elapsed_instants|].
  unfold Qlt, Qeq. simpl.
  pose proof (datetime_trichotomy b e) as [Hlt|[Heq|Hgt]].
  - pose proof (instant_lt b e Vb Ve Hlt) as Hi.
    assert (Hne : b <> e) by (intros ->; rewrite datetime_ltb_irrefl in Hlt; discriminate).
    assert (Hno : datetime_ltb e b <> true)
      by (intros K; pose proof (instant_lt e b Ve Vb K); lia).
    repeat split; intros; try assumption; try lia; try contradiction.
  - subst e. rewrite datetime_ltb_irrefl.
    repeat split; intros; try reflexivity; try lia; try discriminate.
  - pose proof (instant_lt e b Ve Vb Hgt) as Hi.
    assert (Hne : b <> e) by (intros ->; rewrite datetime_ltb_irrefl in Hgt; discriminate).
    assert (Hno : datetime_ltb b e <> true)
      by (intros K; pose proof (instant_lt b e Vb Ve K); lia).
    repeat split; intros; try assumption; try lia; try contradiction.
Qed.

Lemma time_elapsed_sign_witness :
  exists q : Q,
    time_elapsed shift_event = Ok q
    /\ (Qlt 0 q <-> datetime_ltb (mkdatetime 2019 7 14 15 0 0 0) (mkdatetime 2019 7 14 23 30 0 0) = true)
    /\ (Qeq q 0 <-> mkdatetime 2019 7 14 15 0 0 0 = mkdatetime 2019 7 14 23 30 0 0)
    /\ (Qlt q 0 <-> datetime_ltb (mkdatetime 2019 7 14 23 30 0 0) (mkdatetime 2019 7 14 15 0 0 0) = true).
Proof.
  exact (time_elapsed_sign shift_event _ _ eq_refl eq_refl eq_refl eq_refl).
Defined.

Lemma valid_year (d : datetime) : valid_datetime d -> 1 <= year d <= 9999.
Proof.
  unfold valid_datetime, valid_datetimeb.
  rewrite !andb_true_iff, !Z.leb_le. lia.
Qed.

(** The ordinals of the valid dates: 0001-01-01 is 1, 9999-12-31 is
    3652059. *)
Lemma toordinal_bounds (d : datetime) :
  valid_datetime d -> 1 <= toordinal d <= 3652059.
Proof.
  intros V. pose proof (valid_year d V) as Hy.
  pose proof (valid_ranges d V) as (Hm & Hd & _).
  pose proof (day_of_year_bounds _ _ _ Hm Hd) as Hdoy.
  pose proof (year_length (year d)) as Hlen.
  pose proof (days_before_year_mono 1 (year d) ltac:(lia)) as Hlo.
  pose proof (days_before_year_mono (year d + 1) 10000 ltac:(lia)) as Hhi.
  change (days_before_year 1) with 0 in Hlo.
  change (days_before_year 10000) with 3652059 in Hhi.
  unfold toordinal. lia.
Qed.

(** The whole seconds between two timestamps. *)
Lemma seconds_between_bounds (b e : datetime) :
  valid_datetime b -> valid_datetime e ->
  Z.abs ((toordinal e - toordinal b) * 86400 + (seconds_of_day e - seconds_of_day b))
  < 2 ^ 53.
Proof.
  intros Vb Ve.
  pose proof (toordinal_bounds b Vb). pose proof (toordinal_bounds e Ve).
  pose proof (valid_ranges b Vb) as (_ & _ & Hb).
  pose proof (valid_ranges e Ve) as (_ & _ & He).
  change (2 ^ 53) with 9007199254740992.
  unfold seconds_of_day. lia.
Qed.

Lemma time_elapsed_same_microsecond (self : EventPacket) (b e : datetime) :
  begin self = VDatetime b -> end_ self = VDatetime e ->
  microsecond e = microsecond b ->
  exists q : Q,
    time_elapsed self = Ok q
    /\ Qeq q (inject_Z ((toordinal e - toordinal b) * 86400
                        + (seconds_of_day e - seconds_of_day b))).
Proof.
  intros Hb He Hus.
  exists (total_seconds (datetime_sub e b)).
  split; [now apply time_elapsed_timestamps|].
  unfold total_seconds, datetime_sub. rewrite total_microseconds_new.
  unfold Qeq. simpl. lia.
Qed.

(** X1: between two valid timestamps with the same microsecond,
    [time_elapsed] is the whole number of seconds from [begin] to [end]:
    the days between the dates times 86400 plus the difference of the
    times of day.  That number is below 2^53 in size, so the float Python
    returns is this number exactly. *)
Theorem time_elapsed_whole_seconds (self : EventPacket) (b e : datetime) :
  begin self = VDatetime b -> end_ self = VDatetime e ->
  valid_datetime b -> valid_datetime e ->
  microsecond e = microsecond b ->
  exists (q : Q) (n : Z),
    time_elapsed self = Ok q /\ Qeq q (inject_Z n)
    /\ n = (toordinal e - toordinal b) * 86400 + (seconds_of_day e - seconds_of_day b)
    /\ Z.abs n < 2 ^ 53.
Proof.
  intros Hb He Vb Ve Hus.
  destruct (time_elapsed_same_microsecond self b e Hb He Hus) as (q & Hq & Hn).
  exists q, ((toordinal e - toordinal b) * 86400 + (seconds_of_day e - seconds_of_day b)).
  repeat split; try assumption.
  now apply seconds_between_bounds.
Qed.

Lemma time_elapsed_whole_seconds_witness :
  exists (q : Q) (n : Z),
    time_elapsed shift_event = Ok q /\ Qeq q (inject_Z n)
    /\ n = 30600 /\ Z.abs n < 2 ^ 53.
Proof.
  exact (time_elapsed_whole_seconds shift_event
           (mkdatetime 2019 7 14 15 0 0 0) (mkdatetime 2019 7 14 23 30 0 0)
           eq_refl eq_refl eq_refl eq_refl eq_refl).
Defined.

(** X14: for valid timestamps [a], [b], [c] with the same microsecond,
    elapsed times add up over adjacent intervals: the events from [a] to
    [b], from [b] to [c] and from [a] to [c] last whole numbers of seconds
    [m], [n] and [m + n], and the event from [b] back to [a] lasts [- m].
    Each of these is below 2^53 in size, so the floats Python returns are
    these numbers exactly. *)
Theorem time_elapsed_adjacent (first second whole back : EventPacket) (a b c : datetime) :
  begin first = VDatetime a -> end_ first = VDatetime b ->
  begin second = VDatetime b -> end_ second = VDatetime c ->
  begin whole = VDatetime a -> end_ whole = VDatetime c ->
  begin back = VDatetime b -> end_ back = VDatetime a ->
  valid_datetime a -> valid_datetime b -> valid_datetime c ->
  microsecond a = microsecond b -> microsecond b = microsecond c ->
  exists (x y z w : Q) (m n : Z),
    time_elapsed first = Ok x /\ time_elapsed second = Ok y
    /\ time_elapsed whole = Ok z /\ time_elapsed back = Ok w
    /\ Qeq x (inject_Z m) /\ Qeq y (inject_Z n)
    /\ Qeq z (inject_Z (m + n)) /\ Qeq w (inject_Z (- m))
    /\ Z.abs m < 2 ^ 53 /\ Z.abs n < 2 ^ 53 /\ Z.abs (m + n) < 2 ^ 53.
Proof.
  intros H1 H2 H3 H4 H5 H6 H7 H8 Va Vb Vc Hab Hbc.
  destruct (time_elapsed_same_microsecond first a b H1 H2 ltac:(congruence)) as (x & Hx & Ex).
  destruct (time_elapsed_same_microsecond second b c H3 H4 ltac:(congruence)) as (y & Hy & Ey).
  destruct (time_elapsed_same_microsecond whole a c H5 H6 ltac:(congruence)) as (z & Hz & Ez).
  destruct (time_elapsed_same_microsecond back b a H7 H8 ltac:(congruence)) as (w & Hw & Ew).
  pose proof (seconds_between_bounds a b Va Vb) as Bm.
  pose proof (seconds_between_bounds b c Vb Vc) as Bn.
  pose proof (seconds_between_bounds a c Va Vc) as Bmn.
  exists x, y, z, w,
    ((toordinal b - toordinal a) * 86400 + (seconds_of_day b - seconds_of_day a)),
    ((toordinal c - toordinal b) * 86400 + (seconds_of_day c - seconds_of_day b)).
  repeat split; try assumption.
  - rewrite Ez. apply inject_Z_injective. lia.
  - rewrite Ew. apply inject_Z_injective. lia.
  - replace ((toordinal b - toordinal a) * 86400 + (seconds_of_day b - seconds_of_day a)
             + ((toordinal c - toordinal b) * 86400 + (seconds_of_day c - seconds_of_day b)))
      with ((toordinal c - toordinal a) * 86400 + (seconds_of_day c - seconds_of_day a))
      by lia.
    exact Bmn.
Qed.

Lemma time_elapsed_adjacent_witness :
  exists (x y z w : Q) (m n : Z),
    time_elapsed (event_in "UTC" (at_time 2019 7 14 15 0 0) (at_time 2019 7 14 23 30 0) VNone) = Ok x
    /\ time_elapsed (event_in "UTC" (at_time 2019 7 14 23 30 0) (at_time 2019 7 15 8 0 0) VNone) = Ok y
    /\ time_elapsed (event_in "UTC" (at_time 2019 7 14 15 0 0) (at_time 2019 7 15 8 0 0) VNone) = Ok z
    /\ time_elapsed (event_in "UTC" (at_time 2019 7 14 23 30 0) (at_time 2019 7 14 15 0 0) VNone) = Ok w
    /\ Qeq x (inject_Z m) /\ Qeq y (inject_Z n)
    /\ Qeq z (inject_Z (m + n)) /\ Qeq w (inject_Z (- m))
    /\ Z.abs m < 2 ^ 53 /\ Z.abs n < 2 ^ 53 /\ Z.abs (m + n) < 2 ^ 53.
Proof.
  exact (time_elapsed_adjacent
           (event_in "UTC" (at_time 2019 7 14 15 0 0) (at_time 2019 7 14 23 30 0) VNone)
           (event_in "UTC" (at_time 2019 7 14 23 30 0) (at_time 2019 7 15 8 0 0) VNone)
           (event_in "UTC" (at_time 2019 7 14 15 0 0) (at_time 2019 7 15 8 0 0) VNone)
           (event_in "UTC" (at_time 2019 7 14 23 30 0) (at_time 2019 7 14 15 0 0) VNone)
           (mkdatetime 2019 7 14 15 0 0 0) (mkdatetime 2019 7 14 23 30 0 0)
           (mkdatetime 2019 7 15 8 0 0 0)
           eq_refl eq_refl eq_refl eq_refl eq_refl eq_refl eq_refl eq_refl
           eq_refl eq_refl eq_refl eq_refl eq_refl).
Defined.

(** ** Events of the default zone *)

Lemma los_angeles_offsets (elsewhere : zone) (t : datetime) :
  valid_datetime t -> 2007 <= year t <= 2037 ->
  los_angeles elsewhere t = Ok (-420) \/ los_angeles elsewhere t = Ok (-480).
Proof.
  intros V H. rewrite (los_angeles_in_years elsewhere t V H).
  destruct (us_dst t); [now left | now right].
Qed.

(** X15: for every event [from_string] returns whose [begin] lies in the
    years 2007 to 2037, [utc_offset] of that [begin] in the zone the event
    was given, America/Los_Angeles, returns "-07:00" or "-08:00": within
    these years the offset pattern never refuses an event built from
    strings. *)
Theorem from_string_offset (elsewhere : zone) (interval text : value)
        (ev : EventPacket) (b : datetime) :
  from_string interval text = Ok ev ->
  begin ev = VDatetime b -> 2007 <= year b <= 2037 ->
  utc_offset (zoneinfo_extract elsewhere) ev (begin ev) = Ok "-07:00"
  \/ utc_offset (zoneinfo_extract elsewhere) ev (begin ev) = Ok "-08:00".
Proof.
  intros H Hb Hyear. apply from_string_inversion in H.
  destruct H as (s1 & s2 & t & b' & e & _ & _ & Hparsed & _ & ->).
  simpl in Hb. injection Hb as ->. simpl begin.
  apply strptime_ok in Hparsed. destruct Hparsed as [Hvalid _].
  destruct (los_angeles_offsets elsewhere b Hvalid Hyear) as [Hoff|Hoff].
  - left.
    rewrite (utc_offset_west (zoneinfo_extract elsewhere) _ "America/Los_Angeles"
               (los_angeles elsewhere) b (-420));
      [reflexivity | reflexivity | reflexivity | exact Hoff | lia].
  - right.
    rewrite (utc_offset_west (zoneinfo_extract elsewhere) _ "America/Los_Angeles"
               (los_angeles elsewhere) b (-480));
      [reflexivity | reflexivity | reflexivity | exact Hoff | lia].
Qed.

Lemma from_string_offset_witness :
  utc_offset sample_zoneinfo shift_event (begin shift_event) = Ok "-07:00"
  \/ utc_offset sample_zoneinfo shift_event (begin shift_event) = Ok "-08:00".
Proof.
  apply (from_string_offset not_in_extract
           (VTuple [VStr "2019-07-14T15:00:00"; VStr "2019-07-14T23:30:00"]) (VStr "X")
           shift_event (mkdatetime 2019 7 14 15 0 0 0)).
  - reflexivity.
  - reflexivity.
  - simpl. lia.
Defined.
